(** * The terminal of Site-Portifolio: command interpreter and input recall

    A shallow embedding of the [TerminalPortfolio] React component (its
    source is the second unit of frontend/src/components/Contact.tsx), of the
    theme context it calls into (frontend/src/contexts/ThemeContext.tsx) and
    of the switch in [AppContent] (frontend/src/App.tsx) that mounts and
    unmounts it.

    Component state is passed explicitly.  A handler takes the state of the
    render it closes over and returns the state after React has applied the
    queued setters; calls that leave the component ([setTheme], [setTimeout])
    are returned as a list of effects, in call order, and are interpreted one
    level up, in [App].

    Strings are [string]s holding the UTF-8 bytes of the text, which lets the
    JSX literals be written as they stand in the source.  [trim] strips the
    white space and line terminators of ECMAScript, in their UTF-8 encodings.
    [toLowerCase] depends on the Unicode tables of the engine the page runs
    on: it is a field of the engine, which comes with the facts about it that
    the proofs use. *)

From Stdlib Require Import String Ascii List NArith ZArith Lia Bool Arith DecimalString.
Import ListNotations.
Local Open Scope string_scope.
Local Open Scope list_scope.
Local Open Scope Z_scope.
Set Warnings "-register-all".

(** ** The string primitives of the host language used by the component *)

Module Js.

(** The UTF-8 encoding of a code point. *)
Definition utf8 (cp : N) : string :=
  let b (n : N) := ascii_of_N n in
  (if cp <? 0x80 then String (b cp) EmptyString
   else if cp <? 0x800 then
     String (b (0xC0 + cp / 0x40)) (String (b (0x80 + cp mod 0x40)) EmptyString)
   else if cp <? 0x10000 then
     String (b (0xE0 + cp / 0x1000))
       (String (b (0x80 + (cp / 0x40) mod 0x40))
          (String (b (0x80 + cp mod 0x40)) EmptyString))
   else
     String (b (0xF0 + cp / 0x40000))
       (String (b (0x80 + (cp / 0x1000) mod 0x40))
          (String (b (0x80 + (cp / 0x40) mod 0x40))
             (String (b (0x80 + cp mod 0x40)) EmptyString))))%N.

(** The code points [String.prototype.trim] strips: ECMAScript's WhiteSpace
    (TAB, VT, FF, ZWNBSP and the space separators of Unicode: SP, NBSP,
    U+1680, U+2000 to U+200A, U+202F, U+205F, U+3000) and its LineTerminator
    (LF, CR, LS, PS). *)
Definition whiteSpaceCodePoints : list N :=
  [ 0x9; 0xA; 0xB; 0xC; 0xD; 0x20; 0xA0; 0x1680;
    0x2000; 0x2001; 0x2002; 0x2003; 0x2004; 0x2005; 0x2006; 0x2007; 0x2008;
    0x2009; 0x200A; 0x2028; 0x2029; 0x202F; 0x205F; 0x3000; 0xFEFF ]%N.

(** Their encodings, one to three bytes each. *)
Definition whiteSpace : list string :=
  Eval vm_compute in map utf8 whiteSpaceCodePoints.

(** [ch] is the encoding of one white space character. *)
Definition isWhiteSpace (ch : string) : bool := existsb (String.eqb ch) whiteSpace.

(** [s] is made of white space only. *)
Fixpoint isBlank (s : string) : bool :=
  match s with
  | EmptyString => true
  | String a r1 =>
      if isWhiteSpace (String a EmptyString) then isBlank r1
      else match r1 with
           | EmptyString => false
           | String b r2 =>
               if isWhiteSpace (String a (String b EmptyString)) then isBlank r2
               else match r2 with
                    | EmptyString => false
                    | String c r3 =>
                        if isWhiteSpace (String a (String b (String c EmptyString)))
                        then isBlank r3 else false
                    end
           end
  end.

(** [s.trimStart()]: the white space characters [s] begins with are dropped,
    one encoding at a time. *)
Fixpoint trimStart (s : string) : string :=
  match s with
  | EmptyString => EmptyString
  | String a r1 =>
      if isWhiteSpace (String a EmptyString) then trimStart r1
      else match r1 with
           | EmptyString => s
           | String b r2 =>
               if isWhiteSpace (String a (String b EmptyString)) then trimStart r2
               else match r2 with
                    | EmptyString => s
                    | String c r3 =>
                        if isWhiteSpace (String a (String b (String c EmptyString)))
                        then trimStart r3 else s
                    end
           end
  end.

(** [s.trimEnd()]: [s] up to the point from which only white space
    follows. *)
Fixpoint trimEnd (s : string) : string :=
  match s with
  | EmptyString => EmptyString
  | String c r => if isBlank s then EmptyString else String c (trimEnd r)
  end.

(** [s.trim()] *)
Definition trim (s : string) : string := trimEnd (trimStart s).

(** Lower case on ASCII: A to Z onto a to z, every other byte as it is. *)
Definition asciiLowerChar (c : ascii) : ascii :=
  let n := nat_of_ascii c in
  if ((65 <=? n)%nat && (n <=? 90)%nat) then ascii_of_nat (n + 32) else c.

Fixpoint asciiLowerCase (s : string) : string :=
  match s with
  | EmptyString => EmptyString
  | String c r => String (asciiLowerChar c) (asciiLowerCase r)
  end.

(** Every byte of [s] is below 128. *)
Fixpoint isAscii (s : string) : bool :=
  match s with
  | EmptyString => true
  | String c r => (nat_of_ascii c <? 128)%nat && isAscii r
  end.

(** The implementation of the language: its [String.prototype.toLowerCase],
    which follows the case mapping tables of the Unicode version it was built
    with, and three facts about it that hold for every version: on ASCII text
    it maps A to Z onto a to z and nothing else; it neither makes nor unmakes
    a string of white space only (white space has no case, and no character
    maps to white space); and it maps the two sides of a space separately (a
    space is neither cased nor case-ignorable, so no context rule looks across
    it). *)
Record Engine : Type := mkEngine {
  toLowerCase : string -> string;
  lower_ascii : forall s, isAscii s = true -> toLowerCase s = asciiLowerCase s;
  lower_blank : forall s, isBlank (toLowerCase s) = isBlank s;
  lower_space : forall a b,
      toLowerCase (a ++ String " " b) = (toLowerCase a ++ String " " (toLowerCase b))%string
}.

(** [s.split(sep)] for a separator of one character.  The array it returns
    is never empty (the empty string splits into one empty piece, and two
    adjacent separators enclose an empty piece), so it is given as its first
    piece and the rest, which is how the component takes it apart. *)
Fixpoint split (sep : ascii) (s : string) : string * list string :=
  match s with
  | EmptyString => (EmptyString, [])
  | String c r =>
      let '(w, ws) := split sep r in
      if Ascii.eqb c sep then (EmptyString, w :: ws) else (String c w, ws)
  end.

(** [xs.join(sep)] *)
Definition join (sep : string) (xs : list string) : string := String.concat sep xs.

(** [xs.includes(x)] on an array of strings *)
Definition includes (xs : list string) (x : string) : bool :=
  existsb (String.eqb x) xs.

(** Truthiness of a value that is a string or [undefined]. *)
Definition truthy (v : option string) : bool :=
  match v with
  | None => false
  | Some s => negb (String.eqb s EmptyString)
  end.

(** [v || d] for such a value. *)
Definition orElse (v : option string) (d : string) : string :=
  match v with
  | Some s => if String.eqb s EmptyString then d else s
  | None => d
  end.

(** [xs[i]] for a numeric index: [undefined] outside the array. *)
Definition index {A : Type} (xs : list A) (i : Z) : option A :=
  if i <? 0 then None else nth_error xs (Z.to_nat i).

(** Template interpolation of an integer. *)
Definition showZ (z : Z) : string := NilZero.string_of_int (Z.to_int z).

(** What a call can end in. *)
Inductive Completion (A : Type) : Type :=
| Normal (a : A)
| Throw (error : string).
Arguments Normal {A} a.
Arguments Throw {A} error.

End Js.

(** ** frontend/src/lib/api.ts: the project record *)

Module Api.

Record Links : Type := mkLinks {
  github : option string;
  live : option string;
  demo : option string
}.

Record Project : Type := mkProject {
  id : string;
  title : string;
  description : string;
  short_description : option string;
  technologies : list string;
  images : list string;
  thumbnail : option string;
  links : option Links;
  category : string;
  featured : bool;
  date_created : string;
  date_updated : string
}.

End Api.

(** ** Rendered output

    What a JSX expression evaluates to: text, or an element with its tag, its
    [className] and its children.  A child that React skips ([undefined],
    [false]) is left out of the list. *)

Inductive Node : Type :=
| Text (s : string)
| Elem (tag className : string) (children : list Node).

Fixpoint textContent (n : Node) : string :=
  match n with
  | Text s => s
  | Elem _ _ cs =>
      (fix go (l : list Node) : string :=
         match l with
         | [] => EmptyString
         | c :: r => (textContent c ++ go r)%string
         end) cs
  end.

(** The text of every element below [n], in document order, that carries the
    class [cls]. *)
Fixpoint textsOfClass (cls : string) (n : Node) : list string :=
  match n with
  | Text _ => []
  | Elem _ k cs =>
      (if String.eqb k cls then [textContent n] else [])
      ++ (fix go (l : list Node) : list string :=
            match l with
            | [] => []
            | c :: r => textsOfClass cls c ++ go r
            end) cs
  end.

(** [needle] occurs among the text nodes of [n]. *)
Fixpoint hasText (needle : string) (n : Node) : bool :=
  match n with
  | Text s => String.eqb s needle
  | Elem _ _ cs =>
      (fix go (l : list Node) : bool :=
         match l with
         | [] => false
         | c :: r => hasText needle c || go r
         end) cs
  end.

Definition div (className : string) (children : list Node) : Node :=
  Elem "div" className children.
Definition span (className : string) (children : list Node) : Node :=
  Elem "span" className children.
Definition p (children : list Node) : Node := Elem "p" EmptyString children.
Definition pre (className : string) (children : list Node) : Node :=
  Elem "pre" className children.

(** ** frontend/src/components/TerminalPortfolio.tsx *)

Module TerminalPortfolio.

(** What the host supplies to a call: the clock at the moment of the call
    ([Date.now()], which is also the instant a [new Date()] captures) with the
    two renderings of that instant ([toString], [toISOString]); the clock and
    the size of [window], when there is one, as they were at the render whose
    handlers are running; and the engine. *)
Record Host : Type := mkHost {
  now : Z;
  dateString : string;
  isoString : string;
  renderedAt : Z;
  window : option (Z * Z);
  engine : Js.Engine
}.

(** [interface Command] *)
Record Command : Type := mkCommand {
  input : string;
  output : Node;
  timestamp : Z
}.

(** The [useState] cells of the component.  [currentInput] is [None] when
    the cell holds [undefined], which is what an array read outside its bounds
    would store there. *)
Record State : Type := mkState {
  commands : list Command;
  currentInput : option string;
  commandHistory : list string;
  historyIndex : Z;
  projects : list Api.Project
}.

(** A callback handed to [setTimeout]; the component has one:
    [() => setTheme('default')]. *)
Inductive Callback : Type :=
| ThenSetTheme (theme : string).

(** Calls that leave the component. *)
Inductive Effect : Type :=
| SetTheme (theme : string)
| SetTimeout (callback : Callback) (ms : Z).

Definition prompt : string := "visitor@site-portifolio:~$".

(** [Object.entries(availableCommands)]: the keys in insertion order. *)
Definition availableCommands : list (string * string) :=
  [ ("help", "Show available commands");
    ("about", "Display information about me");
    ("skills", "List technical skills");
    ("projects", "Show my projects");
    ("contact", "Display contact information");
    ("experience", "Show work experience");
    ("education", "Display educational background");
    ("clear", "Clear the terminal");
    ("whoami", "Display brief introduction");
    ("ls", "List available sections");
    ("cat", "Display file contents (usage: cat <filename>)");
    ("neofetch", "Display system information");
    ("tree", "Show portfolio structure");
    ("pwd", "Print working directory");
    ("date", "Show current date and time");
    ("theme", "Switch themes (usage: theme <default|angler|magic|cmd>)");
    ("exit", "Return to normal portfolio view") ].

Definition asciiArt : string :=
"
    ╔══════════════════════════════════════════════════════════════╗
    ║                                                              ║
    ║    ██████╗  ██████╗ ██████╗ ████████╗███████╗ ██████╗ ██╗    ██╗ ██████╗ ║
    ║    ██╔══██╗██╔═══██╗██╔══██╗╚══██╔══╝██╔════╝██╔═══██╗██║    ██║██╔═══██╗║
    ║    ██████╔╝██║   ██║██████╔╝   ██║   █████╗  ██║   ██║██║    ██║██║   ██║║
    ║    ██╔═══╝ ██║   ██║██╔══██╗   ██║   ██╔══╝  ██║   ██║██║    ██║██║   ██║║
    ║    ██║     ╚██████╔╝██║  ██║   ██║   ██║     ╚██████╔╝███████╗██║╚██████╔╝║
    ║    ╚═╝      ╚═════╝ ╚═╝  ╚═╝   ╚═╝   ╚═╝      ╚═════╝ ╚══════╝╚═╝ ╚═════╝ ║
    ║                                                              ║
    ╚══════════════════════════════════════════════════════════════╝
  ".

Definition treeText : string :=
"Site-Portifolio/
├── backend/
│   ├── app/
│   │   ├── config/
│   │   │   ├── database.py
│   │   │   └── settings.py
│   │   ├── middleware/
│   │   │   ├── error_handler.py
│   │   │   └── rate_limiter.py
│   │   ├── models/
│   │   │   ├── admin.py
│   │   │   ├── contact.py
│   │   │   └── project.py
│   │   ├── routes/
│   │   │   ├── admin.py
│   │   │   ├── contact.py
│   │   │   ├── health.py
│   │   │   ├── projects.py
│   │   │   └── upload.py
│   │   ├── services/
│   │   │   ├── email_service.py
│   │   │   ├── file_service.py
│   │   │   └── image_service.py
│   │   └── templates/
│   │       └── emails/
│   ├── main.py
│   ├── requirements.txt
│   └── uploads/
├── frontend/
│   ├── src/
│   │   ├── components/
│   │   │   ├── ui/
│   │   │   ├── About.tsx
│   │   │   ├── Contact.tsx
│   │   │   ├── Projects.tsx
│   │   │   └── TerminalPortfolio.tsx
│   │   ├── contexts/
│   │   │   └── ThemeContext.tsx
│   │   ├── lib/
│   │   │   ├── api.ts
│   │   │   └── utils.ts
│   │   ├── App.tsx
│   │   └── main.tsx
│   ├── package.json
│   ├── tailwind.config.js
│   └── vite.config.ts
├── LICENSE
└── README.md".

Definition neofetchHead : string :=
"
                    visitor@Site-Portifolio
                    ------------------------
    OS              Portfolio Stack v2.0
    Host            React + FastAPI Environment
    Kernel          React 19.1.0 + Python FastAPI
    Uptime          ".

Definition neofetchMid : string :=
" minutes
    Packages        TypeScript, Tailwind, Framer Motion, Vite
    Shell           portfolio-terminal v1.0
    Resolution      ".

Definition neofetchTail : string :=
"
    Terminal        Interactive CMD Interface
    Database        PostgreSQL with Pydantic models
    Features        Multi-theme UI, Admin panel, File uploads
    Architecture    Full Stack Portfolio System
  ".

(** The component computes this text at each render, and [executeCommand]
    closes over the text of the render it belongs to. *)
Definition neofetchInfo (h : Host) : string :=
  (neofetchHead ++ Js.showZ (renderedAt h / 1000 / 60) ++ neofetchMid
   ++ match window h with
      | Some (w, ht) => Js.showZ w ++ "x" ++ Js.showZ ht
      | None => "1920x1080"
      end
   ++ neofetchTail)%string.

(** The mock data the catch branch of [fetchProjects] stores. *)
Definition mockProjects (h : Host) : list Api.Project :=
  [ Api.mkProject "1" "Portfolio Terminal"
      "Interactive terminal-style portfolio interface"
      (Some "CMD-style portfolio interface")
      ["React"; "TypeScript"; "Framer Motion"; "Tailwind CSS"]
      [] None
      (Some (Api.mkLinks (Some "https://github.com/user/portfolio") None
               (Some "https://portfolio.dev")))
      "Web Development" true (isoString h) (isoString h);
    Api.mkProject "2" "Full Stack Dashboard"
      "Modern dashboard with real-time data visualization"
      (Some "Real-time dashboard")
      ["React"; "FastAPI"; "PostgreSQL"; "Chart.js"]
      [] None
      (Some (Api.mkLinks (Some "https://github.com/user/dashboard") None None))
      "Full Stack" true (isoString h) (isoString h) ].

(** The two continuations of [fetchProjects]. *)
Definition fetchResolved (data : list Api.Project) (st : State) : State :=
  mkState (commands st) (currentInput st) (commandHistory st) (historyIndex st) data.

Definition fetchRejected (h : Host) (st : State) : State :=
  mkState (commands st) (currentInput st) (commandHistory st) (historyIndex st)
          (mockProjects h).

(** *** The output of each case of the switch *)

Definition helpOutput : Node :=
  div "space-y-1"
    (div "text-green-400 font-bold mb-2" [Text "Available Commands:"]
     :: map (fun '(command, description) =>
               div "flex"
                 [ span "text-cyan-400 w-16" [Text command];
                   span "text-gray-300" [Text "- "; Text description] ])
            availableCommands).

Definition aboutOutput : Node :=
  div "space-y-2"
    [ div "text-green-400 font-bold" [Text "About ManoTilts"];
      div "text-gray-300"
        [ p [Text "👋 Hi! I'm "; span "text-cyan-400" [Text "ManoTilts"]];
          p [Text "🎓 Computer Science student graduating December 2025"];
          p [Text "🎮 Passionate about game development and interactive experiences"];
          p [Text "🚀 Currently expanding into full-stack development"];
          p [Text "💻 Love problem-solving and building creative solutions"];
          p [Text "🔧 Working across the full development spectrum"];
          p [Text "🌟 Seeking opportunities to launch my development career"];
          p [Text "✨ Let's build something amazing together!"] ];
      div "mt-3"
        [ div "text-yellow-400 text-sm"
            [Text "Type 'projects' to see my work • 'skills' for tech stack"] ] ].

Definition skillsOutput : Node :=
  div "space-y-2"
    [ div "text-green-400 font-bold" [Text "Technical Skills"];
      div "grid grid-cols-1 sm:grid-cols-2 gap-2 sm:gap-4 text-gray-300"
        [ div EmptyString
            [ div "text-cyan-400" [Text "Frontend Stack:"];
              div EmptyString [Text "• React 19.1.0"];
              div EmptyString [Text "• TypeScript"];
              div EmptyString [Text "• Vite Build Tool"];
              div EmptyString [Text "• Tailwind CSS"];
              div EmptyString [Text "• Framer Motion"];
              div EmptyString [Text "• Lucide React Icons"];
              div EmptyString [Text "• Axios HTTP Client"] ];
          div EmptyString
            [ div "text-cyan-400" [Text "Backend Stack:"];
              div EmptyString [Text "• Python FastAPI"];
              div EmptyString [Text "• PostgreSQL Database"];
              div EmptyString [Text "• Pydantic Schemas"];
              div EmptyString [Text "• Email Service"];
              div EmptyString [Text "• File Upload System"];
              div EmptyString [Text "• Rate Limiting"];
              div EmptyString [Text "• Error Handling"] ] ];
      div "mt-3"
        [ div "text-cyan-400" [Text "Development Tools:"];
          div "text-gray-300"
            [Text "• ESLint + TypeScript Config • PostCSS • Git Version Control"] ] ].

(** [{v && (<div className=cls>label{v}</div>)}] for an optional string [v]:
    nothing for [undefined], the empty string itself when [v] is empty. *)
Definition whenPresent (v : option string) (cls label : string) : list Node :=
  match v with
  | None => []
  | Some s => if String.eqb s EmptyString then [Text s]
              else [div cls [Text label; Text s]]
  end.

Definition projectCard (project : Api.Project) : Node :=
  div "border-l-2 border-cyan-400 pl-3"
    ([ div "text-cyan-400 font-semibold" [Text (Api.title project)];
       div EmptyString [Text (Api.description project)];
       div "text-sm text-gray-400"
         [Text "Tech: "; Text (Js.join ", " (Api.technologies project))];
       div "text-sm text-gray-400"
         [Text "Category: "; Text (Api.category project)] ]
     ++ whenPresent (match Api.links project with
                     | Some l => Api.github l
                     | None => None
                     end) "text-sm text-blue-400" "Repository: "
     ++ whenPresent (match Api.links project with
                     | Some l => Api.demo l
                     | None => None
                     end) "text-sm text-purple-400" "Demo: ").

Definition loadingPlaceholder : Node :=
  div "text-gray-400" [Text "Loading projects from database..."].

Definition projectsOutput (projects : list Api.Project) : Node :=
  div "space-y-3"
    [ div "text-green-400 font-bold" [Text "Featured Projects"];
      div "space-y-2 text-gray-300"
        (if (Z.of_nat (length projects) >? 0)
         then map projectCard projects
         else [loadingPlaceholder]) ].

Definition contactOutput : Node :=
  div "space-y-2"
    [ div "text-green-400 font-bold" [Text "Project Repository & Contact"];
      div "text-gray-300 space-y-1"
        [ div EmptyString
            [Text "🐙 GitHub: "; span "text-blue-400" [Text "Site-Portifolio Repository"]];
          div EmptyString [Text "🌐 Demo: Interactive Portfolio with Multiple Themes"];
          div EmptyString [Text "📧 Contact: Use the contact form in normal portfolio view"];
          div EmptyString [Text "💻 Features: Terminal UI, Project Showcase, Admin Panel"];
          div EmptyString [Text "🔧 API: FastAPI backend with PostgreSQL database"];
          div EmptyString [Text "📱 Responsive: Works on desktop, tablet, and mobile"];
          div "text-cyan-400 mt-2"
            [Text "Type 'exit' to return to normal view and use the contact form"] ] ].

Definition experienceOutput : Node :=
  div "space-y-2"
    [ div "text-green-400 font-bold" [Text "Project Development Experience"];
      div "space-y-3 text-gray-300"
        [ div "border-l-2 border-yellow-400 pl-3"
            [ div "text-yellow-400 font-semibold" [Text "Full Stack Portfolio Development"];
              div "text-sm text-gray-400" [Text "Current Project"];
              div EmptyString [Text "Complete portfolio system with multiple UI themes"];
              div EmptyString [Text "• FastAPI backend with PostgreSQL integration"];
              div EmptyString [Text "• React frontend with TypeScript and modern tooling"];
              div EmptyString [Text "• Email service, file uploads, and admin functionality"] ];
          div "border-l-2 border-yellow-400 pl-3"
            [ div "text-yellow-400 font-semibold" [Text "Terminal Interface Design"];
              div "text-sm text-gray-400" [Text "Interactive Feature"];
              div EmptyString
                [Text "Custom terminal interface with command history and animations"];
              div EmptyString [Text "• Mobile-responsive design with touch support"];
              div EmptyString
                [Text "• Real-time command execution and project data integration"] ] ] ].

Definition educationOutput : Node :=
  div "space-y-2"
    [ div "text-green-400 font-bold" [Text "Technical Learning & Architecture"];
      div "space-y-3 text-gray-300"
        [ div "border-l-2 border-purple-400 pl-3"
            [ div "text-purple-400 font-semibold" [Text "Full Stack Architecture"];
              div "text-sm text-gray-400" [Text "Modern Web Development"];
              div EmptyString [Text "Implemented industry-standard practices and patterns"];
              div EmptyString [Text "• MVC architecture with FastAPI and Pydantic"];
              div EmptyString [Text "• Component-based React with TypeScript"];
              div EmptyString [Text "• Database design with PostgreSQL"] ];
          div "border-l-2 border-purple-400 pl-3"
            [ div "text-purple-400 font-semibold" [Text "DevOps & Development Tools"];
              div "text-sm text-gray-400" [Text "Professional Workflow"];
              div EmptyString [Text "Modern development environment and practices"];
              div EmptyString [Text "• Vite build system and hot reload"];
              div EmptyString [Text "• ESLint and TypeScript strict mode"];
              div EmptyString [Text "• Git version control and project structure"] ] ] ].

Definition whoamiOutput : Node :=
  div "text-gray-300"
    [ div EmptyString
        [ span "text-cyan-400" [Text "ManoTilts"];
          Text " - Computer Science student and aspiring developer" ];
      div "mt-1 text-yellow-400" [Text "Type 'about' for more information."] ].

Definition lsOutput : Node :=
  div "text-gray-300"
    [ div "grid grid-cols-2 sm:grid-cols-3 gap-2 sm:gap-4"
        [ div "text-cyan-400" [Text "backend/"];
          div "text-cyan-400" [Text "frontend/"];
          div "text-cyan-400" [Text "LICENSE"];
          div "text-cyan-400" [Text "README.md"];
          div "text-cyan-400" [Text "package.json"];
          div "text-cyan-400" [Text ".gitignore"] ] ].

Definition readmeOutput : Node :=
  div "text-gray-300 space-y-2"
    [ div "text-green-400 font-bold" [Text "# Site-Portifolio"];
      div EmptyString
        [Text "🎯 "; span "text-cyan-400" [Text "Modern Full Stack Portfolio System"]];
      div EmptyString [Text "🚀 Multi-theme portfolio with interactive terminal interface"];
      div EmptyString
        [Text "⚡ Built with React 19.1.0, TypeScript, FastAPI, and PostgreSQL"];
      div EmptyString [Text "📱 Responsive design with mobile-optimized terminal"];
      div EmptyString
        [Text "🔧 Features: Project showcase, contact forms, admin panel, file uploads"];
      div EmptyString [Text "🎨 Themes: Default, Angler, Magic, and CMD terminal mode"];
      div "mt-2 text-yellow-400" [Text "Use 'help' to explore available commands"] ].

Definition noSuchFile (arg0 : option string) : Node :=
  div "text-red-400"
    [Text "cat: "; Text (Js.orElse arg0 "filename"); Text ": No such file or directory"].

Definition catOutput (arg0 : option string) : Node :=
  match arg0 with
  | Some a => if (a =? "readme.md")%string then readmeOutput else noSuchFile arg0
  | None => noSuchFile arg0
  end.

Definition neofetchOutput (h : Host) : Node :=
  pre "text-cyan-400 text-xs sm:text-sm leading-tight overflow-x-auto"
    [Text (neofetchInfo h)].

Definition treeOutput : Node :=
  pre "text-gray-300 text-xs sm:text-sm overflow-x-auto" [Text treeText].

Definition pwdOutput : Node :=
  div "text-gray-300" [Text "/home/visitor/Site-Portifolio"].

Definition dateOutput (h : Host) : Node :=
  div "text-gray-300" [Text (dateString h)].

Definition themes : list string := ["default"; "angler"; "magic"; "cmd"].

Definition themeSwitched (a : string) : Node :=
  div "text-green-400"
    [ Text "✓ Theme switched to: "; Text a;
      div "text-gray-300 mt-1"
        [Text (if (a =? "cmd")%string then "Already in terminal mode!"
               else "Switching to normal view...")] ].

Definition unknownTheme (a : string) : Node :=
  div "text-red-400" [Text "Unknown theme: "; Text a].

Definition currentThemeOutput : Node :=
  div "text-gray-300" [Text "Current theme: cmd"].

Definition exitOutput : Node :=
  div "text-yellow-400"
    [ Text "Exiting terminal mode...";
      div "text-gray-300 mt-1" [Text "Switching to default portfolio view"] ].

Definition notFound (cmd : string) : Node :=
  div "text-red-400"
    [ Text "Command '"; Text cmd;
      Text "' not found. Type 'help' for available commands." ].

(** *** executeCommand *)

(** How control leaves the switch: by [break], with [output] assigned and
    the calls made on the way, or by [return], with the state the setters
    called before it leave behind. *)
Inductive Exit : Type :=
| Break (output : Node) (effects : list Effect)
| Return (st : State).

(** [const [cmd, ...args] = input.toLowerCase().trim().split(" ")] *)
Definition tokens (h : Host) (input : string) : string * list string :=
  Js.split " " (Js.trim (Js.toLowerCase (engine h) input)).

Definition dispatch (h : Host) (st : State) (cmd : string) (args : list string) : Exit :=
  let arg0 := Js.index args 0 in
  if (cmd =? "help")%string then Break helpOutput []
  else if (cmd =? "about")%string then Break aboutOutput []
  else if (cmd =? "skills")%string then Break skillsOutput []
  else if (cmd =? "projects")%string then Break (projectsOutput (projects st)) []
  else if (cmd =? "contact")%string then Break contactOutput []
  else if (cmd =? "experience")%string then Break experienceOutput []
  else if (cmd =? "education")%string then Break educationOutput []
  else if (cmd =? "whoami")%string then Break whoamiOutput []
  else if (cmd =? "ls")%string then Break lsOutput []
  else if (cmd =? "cat")%string then Break (catOutput arg0) []
  else if (cmd =? "neofetch")%string then Break (neofetchOutput h) []
  else if (cmd =? "tree")%string then Break treeOutput []
  else if (cmd =? "pwd")%string then Break pwdOutput []
  else if (cmd =? "date")%string then Break (dateOutput h) []
  else if (cmd =? "theme")%string then
    match arg0 with
    | Some a =>
        if Js.truthy arg0 then
          if Js.includes themes a
          then Break (themeSwitched a) [SetTheme a]
          else Break (unknownTheme a) []
        else Break currentThemeOutput []
    | None => Break currentThemeOutput []
    end
  else if (cmd =? "exit")%string then
    Break exitOutput [SetTimeout (ThenSetTheme "default") 1000]
  else if (cmd =? "clear")%string then
    Return (mkState [] (currentInput st) (commandHistory st) (historyIndex st)
                    (projects st))
  else if (cmd =? EmptyString)%string then Return st
  else Break (notFound cmd) [].

Definition executeCommand (h : Host) (input : string) (st : State)
  : State * list Effect :=
  let '(cmd, args) := tokens h input in
  let timestamp := now h in
  match dispatch h st cmd args with
  | Return st' => (st', [])
  | Break output effects =>
      let newCommand := mkCommand input output timestamp in
      (mkState (commands st ++ [newCommand]) (currentInput st)
               (commandHistory st ++ [input]) (-1) (projects st),
       effects)
  end.

(** *** The event handlers *)

Definition setCurrentInput (v : option string) (st : State) : State :=
  mkState (commands st) v (commandHistory st) (historyIndex st) (projects st).

(** Reading [currentInput.trim()] throws when the cell holds [undefined]. *)
Definition handleSubmit (h : Host) (st : State)
  : Js.Completion (State * list Effect) :=
  match currentInput st with
  | None => Js.Throw "TypeError"
  | Some s =>
      if Js.truthy (Some (Js.trim s)) then
        let '(st', effects) := executeCommand h s st in
        Js.Normal (setCurrentInput (Some EmptyString) st', effects)
      else Js.Normal (st, [])
  end.

Definition handleKeyDown (key : string) (st : State) : State :=
  let len := Z.of_nat (length (commandHistory st)) in
  if (key =? "ArrowUp")%string then
    if historyIndex st <? len - 1 then
      let newIndex := historyIndex st + 1 in
      mkState (commands st) (Js.index (commandHistory st) (len - 1 - newIndex))
              (commandHistory st) newIndex (projects st)
    else st
  else if (key =? "ArrowDown")%string then
    if historyIndex st >? 0 then
      let newIndex := historyIndex st - 1 in
      mkState (commands st) (Js.index (commandHistory st) (len - 1 - newIndex))
              (commandHistory st) newIndex (projects st)
    else if historyIndex st =? 0 then
      mkState (commands st) (Some EmptyString) (commandHistory st) (-1) (projects st)
    else st
  else st.

(** *** Mounting *)

Definition welcomeCommand (h : Host) : Command :=
  mkCommand EmptyString
    (div "space-y-2"
       [ pre "text-green-400 text-xs sm:text-sm leading-tight overflow-x-auto hidden sm:block"
           [Text asciiArt];
         div "text-gray-300"
           [ div "text-lg sm:text-xl font-bold text-green-400 sm:hidden mb-2"
               [Text "SITE-PORTIFOLIO TERMINAL"];
             div EmptyString [Text "Welcome to the Site-Portifolio terminal interface!"];
             div "text-cyan-400 mt-2" [Text "Type 'help' to see available commands."];
             div "text-yellow-400" [Text "Use arrow keys to navigate command history."];
             div "text-purple-400 hidden sm:block"
               [Text "Full Stack Portfolio • FastAPI + React + PostgreSQL"] ] ])
    (now h).

(** The initial values of the [useState] cells. *)
Definition initial : State := mkState [] (Some EmptyString) [] (-1) [].

(** The state once the mount effects have run: the welcome entry is in the
    log, and the request for the projects is in flight. *)
Definition mount (h : Host) : State :=
  mkState [welcomeCommand h] (currentInput initial) (commandHistory initial)
          (historyIndex initial) (projects initial).

(** What can happen to a mounted terminal. *)
Inductive Event : Type :=
| Change (value : string)
| KeyDown (key : string)
| Submit
| ExitButton
| FetchResolved (data : list Api.Project)
| FetchRejected.

Definition handle (h : Host) (e : Event) (st : State)
  : Js.Completion (State * list Effect) :=
  match e with
  | Change value => Js.Normal (setCurrentInput (Some value) st, [])
  | KeyDown key => Js.Normal (handleKeyDown key st, [])
  | Submit => handleSubmit h st
  | ExitButton => Js.Normal (st, [SetTheme "default"])
  | FetchResolved data => Js.Normal (fetchResolved data st, [])
  | FetchRejected => Js.Normal (fetchRejected h st, [])
  end.

(** Typing a line and pressing Enter. *)
Definition submitLine (h : Host) (line : string) (st : State)
  : Js.Completion (State * list Effect) :=
  handleSubmit h (setCurrentInput (Some line) st).

End TerminalPortfolio.

(** ** frontend/src/contexts/ThemeContext.tsx and frontend/src/App.tsx

    [ThemeProvider] holds the current theme; [AppContent] renders the terminal
    exactly when that theme is [cmd], so a change away from it unmounts the
    terminal and its state is gone.  Timers belong to the page, not to a
    component: [setTimeout] hands the callback to the host, and the terminal
    keeps no handle on it.  The page below is the page as far as the terminal
    is concerned: of the timers pending on it, it holds those the terminal has
    set; the timers of the other components (the typewriter of the hero
    section, see [Hero]) touch neither the theme nor the terminal and are not
    part of it. *)

Module App.

Import TerminalPortfolio.

Record Page : Type := mkPage {
  currentTheme : string;
  terminal : option State;
  terminalTimers : list (Z * Callback);
  setThemeCalls : list string
}.

(** [useState<Theme>('default')], nothing scheduled, nothing called yet. *)
Definition start : Page := mkPage "default" None [] [].

(** [setTheme(theme)] followed by the render of [AppContent]. *)
Definition setTheme (h : Host) (theme : string) (pg : Page) : Page :=
  mkPage theme
         (if (theme =? "cmd")%string then
            match terminal pg with
            | Some st => Some st
            | None => Some (mount h)
            end
          else None)
         (terminalTimers pg)
         (setThemeCalls pg ++ [theme]).

Definition perform (h : Host) (eff : Effect) (pg : Page) : Page :=
  match eff with
  | SetTheme theme => setTheme h theme pg
  | SetTimeout callback ms =>
      mkPage (currentTheme pg) (terminal pg) (terminalTimers pg ++ [(ms, callback)])
             (setThemeCalls pg)
  end.

Definition performAll (h : Host) (effs : list Effect) (pg : Page) : Page :=
  fold_left (fun acc eff => perform h eff acc) effs pg.

Definition run (h : Host) (cb : Callback) (pg : Page) : Page :=
  match cb with
  | ThenSetTheme theme => setTheme h theme pg
  end.

(** [ms] milliseconds pass: the timers of the terminal that are due run, in
    the order they were set, and the others come closer. *)
Definition elapse (h : Host) (ms : Z) (pg : Page) : Page :=
  let due := filter (fun t => fst t <=? ms) (terminalTimers pg) in
  let rest := filter (fun t => negb (fst t <=? ms)) (terminalTimers pg) in
  fold_left (fun acc t => run h (snd t) acc) due
    (mkPage (currentTheme pg) (terminal pg)
            (map (fun t => (fst t - ms, snd t)) rest) (setThemeCalls pg)).

Inductive Action : Type :=
| Select (theme : string)
| Terminal (e : Event)
| Elapse (ms : Z).

(** An event for the terminal reaches it only while it is mounted. *)
Definition act (h : Host) (a : Action) (pg : Page) : Js.Completion Page :=
  match a with
  | Select theme => Js.Normal (setTheme h theme pg)
  | Elapse ms => Js.Normal (elapse h ms pg)
  | Terminal e =>
      match terminal pg with
      | None => Js.Normal pg
      | Some st =>
          match handle h e st with
          | Js.Throw err => Js.Throw err
          | Js.Normal (st', effs) =>
              Js.Normal (performAll h effs
                           (mkPage (currentTheme pg) (Some st') (terminalTimers pg)
                                   (setThemeCalls pg)))
          end
      end
  end.

Fixpoint acts (h : Host) (l : list Action) (pg : Page) : Js.Completion Page :=
  match l with
  | [] => Js.Normal pg
  | a :: r =>
      match act h a pg with
      | Js.Throw err => Js.Throw err
      | Js.Normal pg' => acts h r pg'
      end
  end.

End App.

(** * Vocabulary of the properties *)

Import TerminalPortfolio.

(** The names the switch of [executeCommand] has a case for. *)
Definition commandSet : list string :=
  [ "help"; "about"; "skills"; "projects"; "contact"; "experience";
    "education"; "clear"; "whoami"; "ls"; "cat"; "neofetch"; "tree"; "pwd";
    "date"; "theme"; "exit" ].

(** A line that is empty or made of white space only: a sequence of the
    characters that [trim] strips, in their encodings. *)
Definition whiteSpaceOnly (s : string) : Prop :=
  exists l, Forall (fun w => In w Js.whiteSpace) l /\ s = String.concat EmptyString l.

(** The state after the code that follows the switch has run for [input]
    with [output]: one entry more in the session log, [input] at the end of
    the input history, the recall cursor back at -1. *)
Definition logged (h : Host) (input : string) (output : Node) (st : State) : State :=
  mkState (commands st ++ [mkCommand input output (now h)]) (currentInput st)
          (commandHistory st ++ [input]) (-1) (projects st).

(** The recall cursor is -1 or indexes the input history. *)
Definition cursorInRange (st : State) : Prop :=
  -1 <= historyIndex st <= Z.of_nat (length (commandHistory st)) - 1.

(** The titles a rendering of the project list shows. *)
Definition listedTitles (n : Node) : list string :=
  textsOfClass "text-cyan-400 font-semibold" n.

(** A run of events on the terminal, each with what the host supplies when
    it is handled; the effects are dropped, they act on the page. *)
Fixpoint handleAll (l : list (Host * Event)) (st : State) : Js.Completion State :=
  match l with
  | [] => Js.Normal st
  | (h, e) :: r =>
      match handle h e st with
      | Js.Throw err => Js.Throw err
      | Js.Normal (st', _) => handleAll r st'
      end
  end.

(** Typing and submitting the lines of [l] one after the other. *)
Fixpoint submitAll (l : list (Host * string)) (st : State) : Js.Completion State :=
  match l with
  | [] => Js.Normal st
  | (h, line) :: r =>
      match submitLine h line st with
      | Js.Throw err => Js.Throw err
      | Js.Normal (st', _) => submitAll r st'
      end
  end.

(** What [n] presses of ArrowUp put into the input field, press by press. *)
Fixpoint recalls (n : nat) (st : State) : list (option string) :=
  match n with
  | O => []
  | S k =>
      let st' := handleKeyDown "ArrowUp" st in
      currentInput st' :: recalls k st'
  end.

(** The page shows the terminal exactly when the current theme is cmd. *)
Definition terminalIffCmd (pg : App.Page) : Prop :=
  match App.terminal pg with
  | Some _ => App.currentTheme pg = "cmd"
  | None => App.currentTheme pg <> "cmd"
  end.

(** An engine to evaluate examples at: its [toLowerCase] is the ASCII one,
    which has the three properties an engine comes with.  Every engine agrees
    with it on ASCII text, so an example whose lines are ASCII comes out the
    same on all of them. *)
Definition asciiEngine : Js.Engine.
Proof.
  refine (Js.mkEngine Js.asciiLowerCase _ _ _).
  - intros s _. reflexivity.
  - assert (Hin : forall ch, Js.isWhiteSpace ch = true <-> In ch Js.whiteSpace).
    { intros ch. unfold Js.isWhiteSpace. rewrite existsb_exists. split.
      - intros [w [Hw E]]. apply String.eqb_eq in E. now subst.
      - intros H. exists ch. split; [exact H | apply String.eqb_refl]. }
    assert (Hc : forall c d, Js.asciiLowerChar c = d ->
                 (97 <=? nat_of_ascii d)%nat && (nat_of_ascii d <=? 122)%nat = false ->
                 c = d).
    { intros c d <-. destruct c as [[] [] [] [] [] [] [] []]; vm_compute;
        (reflexivity || discriminate). }
    assert (Hw : forall w, In w Js.whiteSpace -> Js.asciiLowerCase w = w).
    { intros w H. vm_compute in H.
      repeat (destruct H as [<-|H]; [reflexivity|]). elim H. }
    assert (Hinv : forall w, In w Js.whiteSpace ->
                   forall ch, Js.asciiLowerCase ch = w -> ch = w).
    { intros w H. vm_compute in H.
      repeat (destruct H as [<-|H];
              [ intros ch E;
                repeat (destruct ch as [|?c ch]; [discriminate E|];
                        cbn [Js.asciiLowerCase] in E; injection E as E0 E;
                        apply Hc in E0; [subst|reflexivity]);
                destruct ch; [reflexivity | discriminate E] | ]).
      elim H. }
    assert (Hws : forall ch, Js.isWhiteSpace (Js.asciiLowerCase ch) = Js.isWhiteSpace ch).
    { intros ch. destruct (Js.isWhiteSpace ch) eqn:E1.
      - apply Hin in E1. rewrite (Hw ch E1). now apply Hin.
      - destruct (Js.isWhiteSpace (Js.asciiLowerCase ch)) eqn:E2; [|reflexivity].
        pose proof (proj1 (Hin _) E2) as E3.
        pose proof (Hinv _ E3 ch eq_refl) as Heq. rewrite <- Heq in E2. congruence. }
    assert (G : forall n s, (String.length s <= n)%nat ->
                Js.isBlank (Js.asciiLowerCase s) = Js.isBlank s).
    { induction n as [|n IH]; intros s Hl.
      - destruct s; [reflexivity | simpl in Hl; lia].
      - destruct s as [|a r1]; [reflexivity|].
        cbn [Js.asciiLowerCase Js.isBlank].
        change (String (Js.asciiLowerChar a) EmptyString)
          with (Js.asciiLowerCase (String a EmptyString)).
        rewrite Hws. simpl in Hl.
        destruct (Js.isWhiteSpace (String a EmptyString)); [apply IH; lia|].
        destruct r1 as [|b r2]; [reflexivity|]. cbn [Js.asciiLowerCase].
        change (String (Js.asciiLowerChar a) (String (Js.asciiLowerChar b) EmptyString))
          with (Js.asciiLowerCase (String a (String b EmptyString))).
        rewrite Hws. simpl in Hl.
        destruct (Js.isWhiteSpace (String a (String b EmptyString))); [apply IH; lia|].
        destruct r2 as [|c r3]; [reflexivity|]. cbn [Js.asciiLowerCase].
        change (String (Js.asciiLowerChar a)
                  (String (Js.asciiLowerChar b) (String (Js.asciiLowerChar c) EmptyString)))
          with (Js.asciiLowerCase (String a (String b (String c EmptyString)))).
        rewrite Hws. simpl in Hl.
        destruct (Js.isWhiteSpace (String a (String b (String c EmptyString))));
          [apply IH; lia | reflexivity]. }
    intros s. exact (G (String.length s) s (Nat.le_refl _)).
  - intros a b. induction a as [|c r IH]; [reflexivity|].
    cbn [append Js.asciiLowerCase]. now rewrite IH.
Defined.

(** A host to evaluate examples at. *)
Definition host0 : Host :=
  mkHost 0 "Thu Jan 01 1970 00:00:00 GMT+0000 (Coordinated Universal Time)"
         "1970-01-01T00:00:00.000Z" 0 (Some (1920, 1080)) asciiEngine.

(** * The other components of the page *)

(** ** The contact form: the first unit of frontend/src/components/Contact.tsx *)

Module ContactForm.

(** An object with string values, as the list of its own properties in
    their order. *)
Definition Obj : Type := list (string * string).

Fixpoint get (key : string) (o : Obj) : option string :=
  match o with
  | [] => None
  | (k, v) :: r => if (k =? key)%string then Some v else get key r
  end.

(** [{ ...prev, [name]: value }]: a property that is there keeps its place
    and takes the value, a new one goes last. *)
Fixpoint assign (name value : string) (prev : Obj) : Obj :=
  match prev with
  | [] => [(name, value)]
  | (k, v) :: r =>
      if (k =? name)%string then (k, value) :: r else (k, v) :: assign name value r
  end.

(** [{ name: '', email: '', subject: '', message: '' }] *)
Definition emptyForm : Obj :=
  [ ("name", EmptyString); ("email", EmptyString);
    ("subject", EmptyString); ("message", EmptyString) ].

(** ['idle' | 'success' | 'error'] *)
Inductive SubmitStatus : Type := idle | success | error.

Record State : Type := mkState {
  formData : Obj;
  isSubmitting : bool;
  submitStatus : SubmitStatus
}.

Definition initial : State := mkState emptyForm false idle.

Definition handleInputChange (name value : string) (st : State) : State :=
  mkState (assign name value (formData st)) (isSubmitting st) (submitStatus st).

(** [handleSubmit] up to its [await]: the state it leaves and the body it
    posts, which is the form of the render the handler closes over. *)
Definition handleSubmit (st : State) : State * Obj :=
  (mkState (formData st) true idle, formData st).

(** [handleSubmit] from the [await] on, when the request succeeded: the
    rest of the [try] block, then the [finally] block. *)
Definition sent (st : State) : State :=
  mkState emptyForm false success.

(** The same when it failed: the [catch] block, then the [finally] block. *)
Definition failed (st : State) : State :=
  mkState (formData st) false error.

(** The form with the requests it has in flight, oldest first. *)
Record Session : Type := mkSession {
  state : State;
  inFlight : list Obj
}.

Inductive Event : Type :=
| Input (name value : string)
| Send
| Resolved
| Rejected.

(** The submit button carries [disabled={isSubmitting}], so a [Send] has no
    effect while a request is in flight.  A settlement concerns the oldest
    request. *)
Definition step (e : Event) (s : Session) : Session :=
  match e with
  | Input name value => mkSession (handleInputChange name value (state s)) (inFlight s)
  | Send =>
      if isSubmitting (state s) then s
      else let '(st', body) := handleSubmit (state s) in
           mkSession st' (inFlight s ++ [body])
  | Resolved =>
      match inFlight s with
      | [] => s
      | _ :: r => mkSession (sent (state s)) r
      end
  | Rejected =>
      match inFlight s with
      | [] => s
      | _ :: r => mkSession (failed (state s)) r
      end
  end.

Definition steps (l : list Event) (s : Session) : Session :=
  fold_left (fun acc e => step e acc) l s.

Definition typeAll (edits : list (string * string)) (st : State) : State :=
  fold_left (fun acc e => handleInputChange (fst e) (snd e) acc) edits st.

End ContactForm.

(** ** The project grid: the second unit of frontend/src/lib/api.ts *)

Module Projects.

Record State : Type := mkState {
  projects : list Api.Project;
  categories : list string;
  selectedCategory : string;
  loading : bool
}.

Definition initial : State := mkState [] [] "all" true.

(** [fetchData] when both requests succeeded; [cats] are the
    [{ name, count }] records of the second answer. *)
Definition fetched (items : list Api.Project) (cats : list (string * Z)) (st : State)
  : State :=
  mkState items ("all" :: map fst cats) (selectedCategory st) false.

(** [fetchData] when one of them failed. *)
Definition fetchFailed (st : State) : State :=
  mkState [] ["all"] (selectedCategory st) false.

Definition setSelectedCategory (category : string) (st : State) : State :=
  mkState (projects st) (categories st) category (loading st).

Definition filteredProjects (st : State) : list Api.Project :=
  if (selectedCategory st =? "all")%string then projects st
  else filter (fun project => (Api.category project =? selectedCategory st)%string)
              (projects st).

(** [filteredProjects.length === 0 && !loading]: the notice that no project
    was found is shown. *)
Definition showsEmptyNotice (st : State) : bool :=
  (Z.of_nat (length (filteredProjects st)) =? 0) && negb (loading st).

(** [xs.slice(0, n)] on an array, for [n] not negative. *)
Definition sliceFirst {A : Type} (n : nat) (xs : list A) : list A := firstn n xs.

(** [ProjectCard]: the technologies that get a badge of their own. *)
Definition technologyBadges (project : Api.Project) : list string :=
  sliceFirst 4 (Api.technologies project).

(** [ProjectCard]: the number on the [+N more] badge, when there is one. *)
Definition moreBadge (project : Api.Project) : option Z :=
  if Z.of_nat (length (Api.technologies project)) >? 4
  then Some (Z.of_nat (length (Api.technologies project)) - 4)
  else None.

End Projects.

(** ** The typewriter of the hero section: the third unit of
       frontend/src/components/Contact.tsx *)

Module Hero.

Definition names : list string := ["ManoTilts"; "Felipe Barbosa"].

Record State : Type := mkState {
  displayedName : string;
  isTyping : bool;
  currentNameIndex : Z
}.

(** The initial values of the [useState] cells. *)
Definition initial : State := mkState EmptyString true 0.

(** [s.slice(0, e)]: a negative [e] counts from the end. *)
Definition slice0 (e : Z) (s : string) : string :=
  let len := Z.of_nat (String.length s) in
  let stop := if e <? 0 then Z.max (len + e) 0 else Z.min e len in
  substring 0 (Z.to_nat stop) s.

(** The state updates the callback makes or schedules.  The remainder in
    [NextName] takes the sign of the dividend, as [%] does. *)
Inductive Update : Type :=
| TypeNext (currentName : string)
| StopTyping
| EraseLast
| NextName.

Definition apply (u : Update) (st : State) : State :=
  match u with
  | TypeNext currentName =>
      mkState (slice0 (Z.of_nat (String.length (displayedName st)) + 1) currentName)
              (isTyping st) (currentNameIndex st)
  | StopTyping => mkState (displayedName st) false (currentNameIndex st)
  | EraseLast => mkState (slice0 (-1) (displayedName st)) (isTyping st)
                         (currentNameIndex st)
  | NextName =>
      mkState (displayedName st) true
              (Z.rem (currentNameIndex st + 1) (Z.of_nat (length names)))
  end.

(** What a call of [typewriterEffect] does: nothing, an update at once, or
    an update after a delay in milliseconds. *)
Inductive Plan : Type :=
| Nothing
| Now (u : Update)
| After (ms : Z) (u : Update).

(** [typewriterEffect], for the theme and the state of the render it closes
    over.  Reading [currentName.length] throws when [names] has no entry at
    the index. *)
Definition typewriterEffect (currentTheme : string) (st : State) : Js.Completion Plan :=
  if negb (currentTheme =? "default")%string then Js.Normal Nothing
  else
    let currentName := Js.index names (currentNameIndex st) in
    if isTyping st then
      match currentName with
      | None => Js.Throw "TypeError"
      | Some name =>
          if Z.of_nat (String.length (displayedName st)) <? Z.of_nat (String.length name)
          then Js.Normal (After 100 (TypeNext name))
          else Js.Normal (After 2000 StopTyping)
      end
    else
      if Z.of_nat (String.length (displayedName st)) >? 0
      then Js.Normal (After 50 EraseLast)
      else Js.Normal (Now NextName).

(** The second effect of the component, run when the theme changes. *)
Definition onTheme (currentTheme : string) (st : State) : State :=
  if (currentTheme =? "default")%string then mkState EmptyString true 0
  else mkState "Felipe" (isTyping st) (currentNameIndex st).

(** One round in the default theme.  The first effect hands the callback to
    a timer of 100 ms; the callback runs on the state rendered and its update
    is applied to that same state, since any change of state in between
    re-runs the effect, whose cleanup clears both timers.  The result is the
    state after the update and the time the round took. *)
Definition round (st : State) : Js.Completion (State * Z) :=
  match typewriterEffect "default" st with
  | Js.Throw err => Js.Throw err
  | Js.Normal Nothing => Js.Normal (st, 100)
  | Js.Normal (Now u) => Js.Normal (apply u st, 100)
  | Js.Normal (After ms u) => Js.Normal (apply u st, 100 + ms)
  end.

Fixpoint rounds (n : nat) (st : State) : Js.Completion (State * Z) :=
  match n with
  | O => Js.Normal (st, 0)
  | S k =>
      match round st with
      | Js.Throw err => Js.Throw err
      | Js.Normal (st', t) =>
          match rounds k st' with
          | Js.Throw err => Js.Throw err
          | Js.Normal (st'', t') => Js.Normal (st'', t + t')
          end
      end
  end.

End Hero.

(** * Further vocabulary *)

(** [n] presses of the same key. *)
Fixpoint presses (key : string) (n : nat) (st : State) : State :=
  match n with
  | O => st
  | S k => presses key k (handleKeyDown key st)
  end.

(** What [n] presses of ArrowDown put into the input field, press by press. *)
Fixpoint recallsNext (n : nat) (st : State) : list (option string) :=
  match n with
  | O => []
  | S k =>
      let st' := handleKeyDown "ArrowDown" st in
      currentInput st' :: recallsNext k st'
  end.

(** An event that only moves in the input field: a key, or an edit. *)
Definition isNavigation (e : Event) : bool :=
  match e with
  | Change _ | KeyDown _ => true
  | _ => false
  end.

(** The string has a space in it. *)
Fixpoint hasSpace (s : string) : bool :=
  match s with
  | EmptyString => false
  | String c r => Ascii.eqb c " " || hasSpace r
  end.

(** [p] is what [s] begins with. *)
Definition isPrefix (p s : string) : bool := String.prefix p s.

(** A page on which a terminal is mounted and no timer is pending. *)
Definition terminalPage (st : State) (calls : list string) : App.Page :=
  App.mkPage "cmd" (Some st) [] calls.

(** The current theme is the argument of the last call of [setTheme], and
    every pending timer of the terminal is one that sets the theme to
    default. *)
Definition pageConsistent (pg : App.Page) : Prop :=
  App.currentTheme pg = last (App.setThemeCalls pg) "default"
  /\ Forall (fun t => snd t = ThenSetTheme "default") (App.terminalTimers pg).

(** The two kinds of call a terminal makes: [setTheme] with one of the four
    themes, and [setTimeout] with 1000 ms and the callback that sets the theme
    to default. *)
Definition wellFormedCall (eff : Effect) : Prop :=
  match eff with
  | SetTheme theme => In theme themes
  | SetTimeout callback ms => callback = ThenSetTheme "default" /\ ms = 1000
  end.

(** A session of the contact form has no request in flight and is not
    submitting, or has exactly one in flight, is submitting, and shows the
    status idle. *)
Definition oneRequest (s : ContactForm.Session) : Prop :=
  match ContactForm.inFlight s with
  | [] => ContactForm.isSubmitting (ContactForm.state s) = false
  | [_] => ContactForm.isSubmitting (ContactForm.state s) = true
           /\ ContactForm.submitStatus (ContactForm.state s) = ContactForm.idle
  | _ => False
  end.

(** The name index of the typewriter points into [names], and the text
    displayed is a beginning of the name it points to. *)
Definition typingSomeName (st : Hero.State) : bool :=
  match Js.index Hero.names (Hero.currentNameIndex st) with
  | Some name => isPrefix (Hero.displayedName st) name
  | None => false
  end.

(** The typewriter gets through [n] rounds from its initial state without an
    exception and is then typing some name. *)
Definition typingAfter (n : nat) : bool :=
  match Hero.rounds n Hero.initial with
  | Js.Normal (st, _) => typingSomeName st
  | Js.Throw _ => false
  end.

(** * Facts about the string primitives *)

Lemma isWhiteSpace_In (ch : string) : Js.isWhiteSpace ch = true <-> In ch Js.whiteSpace.
Proof.
  unfold Js.isWhiteSpace. rewrite existsb_exists. split.
  - intros [w [Hin E]]. apply String.eqb_eq in E. now subst.
  - intros H. exists ch. split; [exact H | apply String.eqb_refl].
Qed.

Lemma whiteSpace_step (w : string) :
  In w Js.whiteSpace ->
  forall r, Js.isBlank (w ++ r) = Js.isBlank r /\ Js.trimStart (w ++ r) = Js.trimStart r.
Proof.
  intros H. vm_compute in H.
  repeat (destruct H as [<-|H]; [intros r; split; reflexivity|]). elim H.
Qed.

Lemma isBlank_whiteSpaceOnly (s : string) : Js.isBlank s = true <-> whiteSpaceOnly s.
Proof.
  split.
  - remember (String.length s) as n eqn:En.
    assert (Hl : (String.length s <= n)%nat) by lia. clear En.
    revert s Hl. induction n as [|n IH]; intros s Hl.
    + destruct s; [|simpl in Hl; lia]. intros _. exists []. split; [constructor | reflexivity].
    + destruct s as [|a r1]; [intros _; exists []; split; [constructor | reflexivity]|].
      cbn [Js.isBlank]. simpl in Hl.
      destruct (Js.isWhiteSpace (String a EmptyString)) eqn:E1.
      { intros Hb. destruct (IH r1 ltac:(lia) Hb) as (l & Hf & ->).
        exists (String a EmptyString :: l). split.
        - constructor; [now apply isWhiteSpace_In | exact Hf].
        - destruct l; reflexivity. }
      destruct r1 as [|b r2]; [discriminate|]. simpl in Hl.
      destruct (Js.isWhiteSpace (String a (String b EmptyString))) eqn:E2.
      { intros Hb. destruct (IH r2 ltac:(lia) Hb) as (l & Hf & ->).
        exists (String a (String b EmptyString) :: l). split.
        - constructor; [now apply isWhiteSpace_In | exact Hf].
        - destruct l; reflexivity. }
      destruct r2 as [|c r3]; [discriminate|]. simpl in Hl.
      destruct (Js.isWhiteSpace (String a (String b (String c EmptyString)))) eqn:E3;
        [|discriminate].
      intros Hb. destruct (IH r3 ltac:(lia) Hb) as (l & Hf & ->).
      exists (String a (String b (String c EmptyString)) :: l). split.
      * constructor; [now apply isWhiteSpace_In | exact Hf].
      * destruct l; reflexivity.
  - intros (l & Hf & ->). induction Hf as [|w l Hw Hf IH]; [reflexivity|].
    assert (E : String.concat EmptyString (w :: l) = (w ++ String.concat EmptyString l)%string).
    { assert (Happ : forall x : string, (x ++ EmptyString)%string = x)
        by (intros x; induction x; simpl; congruence).
      destruct l; [simpl; now rewrite Happ | reflexivity]. }
    rewrite E, (proj1 (whiteSpace_step w Hw _)). exact IH.
Qed.

(** What [trimStart] does, by cases on whether the string is blank. *)
Lemma trimStart_cases (s : string) :
  (Js.isBlank s = true /\ Js.trimStart s = EmptyString)
  \/ (Js.isBlank s = false
      /\ exists c t, Js.trimStart s = String c t
                     /\ Js.isBlank (String c t) = false
                     /\ Js.isWhiteSpace (String c EmptyString) = false).
Proof.
  remember (String.length s) as n eqn:En.
  assert (Hl : (String.length s <= n)%nat) by lia. clear En.
  revert s Hl. induction n as [|n IH]; intros s Hl.
  - destruct s; [|simpl in Hl; lia]. left; split; reflexivity.
  - destruct s as [|a r1]; [left; split; reflexivity|].
    cbn [Js.isBlank Js.trimStart]. simpl in Hl.
    destruct (Js.isWhiteSpace (String a EmptyString)) eqn:E1; [apply IH; lia|].
    destruct r1 as [|b r2].
    { right. split; [reflexivity|]. exists a, EmptyString.
      cbn [Js.isBlank]. rewrite E1. repeat split. }
    simpl in Hl.
    destruct (Js.isWhiteSpace (String a (String b EmptyString))) eqn:E2; [apply IH; lia|].
    destruct r2 as [|c r3].
    { right. split; [reflexivity|]. exists a, (String b EmptyString).
      cbn [Js.isBlank]. rewrite E1, E2. repeat split. }
    simpl in Hl.
    destruct (Js.isWhiteSpace (String a (String b (String c EmptyString)))) eqn:E3;
      [apply IH; lia|].
    right. split; [reflexivity|]. exists a, (String b (String c r3)).
    cbn [Js.isBlank]. rewrite E1, E2, E3. repeat split.
Qed.

Lemma trim_cases (s : string) :
  (Js.isBlank s = true /\ Js.trim s = EmptyString)
  \/ (Js.isBlank s = false
      /\ exists c t, Js.trim s = String c t /\ Ascii.eqb c " " = false).
Proof.
  unfold Js.trim.
  destruct (trimStart_cases s) as [[Hb ->]|[Hb (c & t & -> & Hn & Hc)]].
  - left. split; [exact Hb | reflexivity].
  - right. split; [exact Hb|]. exists c, (Js.trimEnd t).
    cbn [Js.trimEnd]. rewrite Hn. split; [reflexivity|].
    destruct (Ascii.eqb_spec c " ") as [->|]; [discriminate Hc | reflexivity].
Qed.

Lemma trim_empty_iff (s : string) : Js.trim s = EmptyString <-> Js.isBlank s = true.
Proof.
  destruct (trim_cases s) as [[Hb ->]|[Hb (c & t & -> & _)]]; rewrite Hb; split;
    congruence.
Qed.

Lemma append_empty_r (s : string) : (s ++ EmptyString)%string = s.
Proof. induction s as [|c r IH]; simpl; [reflexivity | now rewrite IH]. Qed.

Lemma split_rejoin (s : string) :
  String.concat " " (fst (Js.split " " s) :: snd (Js.split " " s)) = s.
Proof.
  induction s as [|c r IH]; [reflexivity|].
  cbn [Js.split]. destruct (Js.split " " r) as [w ws]. cbn [fst snd] in *.
  destruct (Ascii.eqb_spec c " ") as [->|Hc]; cbn [fst snd].
  - cbn [String.concat]. cbn [String.concat] in IH. rewrite IH. reflexivity.
  - cbn [String.concat] in *. destruct ws as [|w' ws']; simpl; f_equal; exact IH.
Qed.

Lemma split_no_space (s : string) :
  Forall (fun t => hasSpace t = false) (fst (Js.split " " s) :: snd (Js.split " " s)).
Proof.
  induction s as [|c r IH]; cbn [Js.split].
  - repeat constructor.
  - destruct (Js.split " " r) as [w ws]. cbn [fst snd] in *.
    inversion IH as [|? ? Hw Hws]; subst.
    destruct (Ascii.eqb c " ") eqn:E; cbn [fst snd].
    + constructor; [reflexivity|]. constructor; assumption.
    + constructor; [|assumption]. cbn [hasSpace]. now rewrite E, Hw.
Qed.

(** The tokens of a line, joined again, are the line in lower case and
    trimmed. *)
Lemma tokens_rejoin (h : Host) (input cmd : string) (args : list string) :
  tokens h input = (cmd, args) ->
  Js.join " " (cmd :: args) = Js.trim (Js.toLowerCase (engine h) input).
Proof.
  intros H. unfold Js.join.
  rewrite <- (split_rejoin (Js.trim (Js.toLowerCase (engine h) input))).
  unfold tokens in H. now rewrite H.
Qed.

Lemma tokens_blank (h : Host) (s : string) :
  Js.isBlank s = true -> tokens h s = (EmptyString, []).
Proof.
  intros H. unfold tokens.
  rewrite (proj2 (trim_empty_iff _)) by (now rewrite Js.lower_blank). reflexivity.
Qed.

(** A line that is not blank has a first token that is not empty. *)
Lemma tokens_head_nonempty (h : Host) (s : string) :
  Js.isBlank s = false -> fst (tokens h s) <> EmptyString.
Proof.
  intros Hb. unfold tokens.
  destruct (trim_cases (Js.toLowerCase (engine h) s)) as [[Hl _]|[_ (c & t & -> & Hc)]].
  - rewrite Js.lower_blank in Hl. congruence.
  - cbn [Js.split]. destruct (Js.split " " t) as [w ws]. rewrite Hc. discriminate.
Qed.

Lemma tokens_head_blank (h : Host) (s : string) :
  fst (tokens h s) <> EmptyString -> Js.isBlank s = false.
Proof.
  intros H. destruct (Js.isBlank s) eqn:E; [|reflexivity].
  rewrite (tokens_blank h s E) in H. now elim H.
Qed.

Lemma truthy_trim (s : string) : Js.truthy (Some (Js.trim s)) = negb (Js.isBlank s).
Proof.
  cbn [Js.truthy].
  destruct (trim_cases s) as [[Hb ->]|[Hb (c & t & -> & _)]]; rewrite Hb; reflexivity.
Qed.

(** * Facts about executeCommand *)

(** The names with a case in the switch are the keys of the registry that
    [help] prints. *)
Lemma commandSet_registry : commandSet = map fst availableCommands.
Proof. reflexivity. Qed.

Lemma executeCommand_dispatch (h : Host) (input : string) (st : State) :
  executeCommand h input st =
  match dispatch h st (fst (tokens h input)) (snd (tokens h input)) with
  | Return st' => (st', [])
  | Break output effects => (logged h input output st, effects)
  end.
Proof.
  unfold executeCommand, logged. destruct (tokens h input) as [cmd args]; reflexivity.
Qed.

Lemma executeCommand_tokens (h : Host) (input : string) (st : State)
      (cmd : string) (args : list string) :
  tokens h input = (cmd, args) ->
  executeCommand h input st =
  match dispatch h st cmd args with
  | Return st' => (st', [])
  | Break output effects => (logged h input output st, effects)
  end.
Proof. intros H. rewrite executeCommand_dispatch, H. reflexivity. Qed.

(** A line whose first token is not empty gets through the guard of
    [handleSubmit]. *)
Lemma submitLine_executes (h : Host) (line : string) (st : State) :
  fst (tokens h line) <> EmptyString ->
  submitLine h line st =
  let '(st', effects) := executeCommand h line (setCurrentInput (Some line) st) in
  Js.Normal (setCurrentInput (Some EmptyString) st', effects).
Proof.
  intros H. unfold submitLine, handleSubmit.
  cbn [currentInput setCurrentInput].
  rewrite truthy_trim, (tokens_head_blank h line H). reflexivity.
Qed.

(** Decides the comparisons of the switch against a first token known to
    differ from every name of [commandSet]. *)
Ltac skip_case Hnot :=
  match goal with
  | |- context [String.eqb ?c ?name] =>
      destruct (String.eqb_spec c name) as [?E|?E];
      [ exfalso; apply Hnot; rewrite E; simpl; tauto | clear E ]
  end.

(** ** The clear command *)

(** C1, as the code has it: for every line whose first token is [clear],
    whatever the session log held before, [executeCommand] leaves an empty
    session log and changes nothing else; in particular the input history and
    the recall cursor are as they were, the line is not recorded, and nothing
    is called outside the component. *)
Theorem clear_empties_log_only (h : Host) (input : string) (st : State) :
  fst (tokens h input) = "clear" ->
  executeCommand h input st =
    (mkState [] (currentInput st) (commandHistory st) (historyIndex st) (projects st), [])
  /\ length (commands (fst (executeCommand h input st))) = 0%nat
  /\ commandHistory (fst (executeCommand h input st)) = commandHistory st
  /\ historyIndex (fst (executeCommand h input st)) = historyIndex st.
Proof.
  intros H. rewrite executeCommand_dispatch, H.
  unfold dispatch; simpl. repeat split; reflexivity.
Qed.

Lemma clear_empties_log_only_witness :
  fst (tokens host0 "clear") = "clear"
  /\ executeCommand host0 "clear" (logged host0 "pwd" pwdOutput (mount host0)) =
       (mkState [] (Some EmptyString) ["pwd"] (-1) [], []).
Proof.
  split; [reflexivity|].
  exact (proj1 (clear_empties_log_only host0 "clear"
                  (logged host0 "pwd" pwdOutput (mount host0)) eq_refl)).
Defined.

(** C1, refuted as stated: on a freshly mounted terminal, typing [clear] and
    submitting it empties the session log, and the input history does not
    contain the string [clear] afterwards. *)
Lemma clear_recorded_counterexample :
  exists st,
    submitLine host0 "clear" (mount host0) = Js.Normal (st, [])
    /\ length (commands st) = 0%nat
    /\ ~ In "clear" (commandHistory st).
Proof.
  eexists. split; [reflexivity|]. split; [reflexivity|]. simpl. tauto.
Qed.

(** ** Blank lines *)

(** C9: for every line that is empty or made only of the white space that
    [trim] strips (TAB, LF, VT, FF, CR, SP, NBSP, ZWNBSP, the line and
    paragraph separators and the space separators of Unicode),
    [executeCommand] returns the state it was given and calls nothing, so
    neither the session log nor the input history gains an entry; and
    [handleSubmit], with that line in the input field, does not even call it
    and leaves the whole state, the field included, as it is. *)
Theorem blank_line_is_noop (h : Host) (input : string) (st : State) :
  whiteSpaceOnly input ->
  executeCommand h input st = (st, [])
  /\ submitLine h input st = Js.Normal (setCurrentInput (Some input) st, [])
  /\ commands (fst (executeCommand h input st)) = commands st
  /\ commandHistory (fst (executeCommand h input st)) = commandHistory st.
Proof.
  intros H. apply isBlank_whiteSpaceOnly in H.
  assert (E : executeCommand h input st = (st, [])).
  { rewrite (executeCommand_tokens h input st _ _ (tokens_blank h input H)).
    reflexivity. }
  rewrite E. repeat split.
  unfold submitLine, handleSubmit. cbn [currentInput setCurrentInput].
  rewrite truthy_trim, H. reflexivity.
Qed.

Lemma blank_line_is_noop_witness :
  whiteSpaceOnly (" " ++ Js.utf8 0xA0 ++ Js.utf8 0x2028 ++ Js.utf8 0xFEFF)
  /\ executeCommand host0 (" " ++ Js.utf8 0xA0 ++ Js.utf8 0x2028 ++ Js.utf8 0xFEFF)
                    (mount host0)
     = (mount host0, []).
Proof.
  assert (H : whiteSpaceOnly (" " ++ Js.utf8 0xA0 ++ Js.utf8 0x2028 ++ Js.utf8 0xFEFF))
    by (apply isBlank_whiteSpaceOnly; reflexivity).
  split; [exact H|].
  exact (proj1 (blank_line_is_noop host0 _ (mount host0) H)).
Defined.

(** ** Unknown commands *)

(** C2: for every line whose first token is not empty and is none of the
    seventeen names of the command set, [executeCommand] appends exactly one
    entry to the session log; its output reads
    [Command '<token>' not found. Type 'help' for available commands.] with
    the token in it; the line is appended to the input history; nothing is
    called outside the component; and submitting the line through
    [handleSubmit] completes normally, with the session carried on. *)
Theorem unknown_command_not_found (h : Host) (input : string) (st : State) :
  fst (tokens h input) <> EmptyString ->
  ~ In (fst (tokens h input)) commandSet ->
  executeCommand h input st = (logged h input (notFound (fst (tokens h input))) st, [])
  /\ commands (logged h input (notFound (fst (tokens h input))) st)
     = commands st ++ [mkCommand input (notFound (fst (tokens h input))) (now h)]
  /\ textContent (notFound (fst (tokens h input)))
     = ("Command '" ++ fst (tokens h input)
        ++ "' not found. Type 'help' for available commands.")%string
  /\ submitLine h input st
     = Js.Normal (setCurrentInput (Some EmptyString)
                    (logged h input (notFound (fst (tokens h input))) st), []).
Proof.
  intros Hne Hnot.
  assert (E : forall st0, executeCommand h input st0
                          = (logged h input (notFound (fst (tokens h input))) st0, [])).
  { intros st0. rewrite executeCommand_dispatch.
    unfold dispatch, commandSet in *.
    repeat skip_case Hnot.
    destruct (String.eqb_spec (fst (tokens h input)) EmptyString) as [E|E];
      [contradiction | reflexivity]. }
  split; [apply E|]. split; [reflexivity|]. split.
  - simpl. reflexivity.
  - rewrite (submitLine_executes h input st Hne), E. reflexivity.
Qed.

Lemma unknown_command_not_found_witness :
  executeCommand host0 "Sudo rm" (mount host0)
  = (logged host0 "Sudo rm" (notFound "sudo") (mount host0), []).
Proof.
  refine (proj1 (unknown_command_not_found host0 "Sudo rm" (mount host0) _ _)).
  - simpl. discriminate.
  - simpl. intros H.
    repeat (destruct H as [H|H]; [discriminate H|]). exact H.
Defined.

(** ** The theme command *)

Lemma includes_In (xs : list string) (x : string) : Js.includes xs x = true <-> In x xs.
Proof.
  unfold Js.includes. rewrite existsb_exists. split.
  - intros [y [Hy E]]. apply String.eqb_eq in E. now subst.
  - intros H. exists x. split; [exact H | apply String.eqb_refl].
Qed.

Lemma includes_not_In (xs : list string) (x : string) :
  ~ In x xs -> Js.includes xs x = false.
Proof.
  intros H. destruct (Js.includes xs x) eqn:E; [|reflexivity].
  apply includes_In in E. contradiction.
Qed.

Lemma setTheme_terminalIffCmd (h : Host) (theme : string) (pg : App.Page) :
  terminalIffCmd (App.setTheme h theme pg).
Proof.
  unfold terminalIffCmd, App.setTheme; simpl.
  destruct (String.eqb_spec theme "cmd") as [E|E];
    [destruct (App.terminal pg)|]; assumption.
Qed.

Lemma performAll_terminalIffCmd (h : Host) (effs : list Effect) (pg : App.Page) :
  terminalIffCmd pg -> terminalIffCmd (App.performAll h effs pg).
Proof.
  unfold App.performAll. revert pg.
  induction effs as [|eff r IH]; intros pg H; simpl; [exact H|].
  apply IH. destruct eff as [theme|cb ms]; simpl.
  - apply setTheme_terminalIffCmd.
  - exact H.
Qed.

Lemma elapse_terminalIffCmd (h : Host) (ms : Z) (pg : App.Page) :
  terminalIffCmd pg -> terminalIffCmd (App.elapse h ms pg).
Proof.
  intros H. unfold App.elapse.
  set (pg0 := App.mkPage _ _ _ _).
  assert (H0 : terminalIffCmd pg0) by exact H.
  clearbody pg0. revert pg0 H0.
  induction (filter (fun t => fst t <=? ms) (App.terminalTimers pg)) as [|[d cb] r IH];
    intros pg0 H0; simpl; [exact H0|].
  apply IH. destruct cb as [theme]. apply setTheme_terminalIffCmd.
Qed.

Lemma act_terminalIffCmd (h : Host) (a : App.Action) (pg pg' : App.Page) :
  terminalIffCmd pg -> App.act h a pg = Js.Normal pg' -> terminalIffCmd pg'.
Proof.
  intros H. destruct a as [theme|e|ms]; simpl.
  - intros E; injection E as <-. apply setTheme_terminalIffCmd.
  - unfold terminalIffCmd in H.
    destruct (App.terminal pg) as [st|] eqn:Et.
    + destruct (handle h e st) as [[st' effs]|err]; [|discriminate].
      intros E; injection E as <-. apply performAll_terminalIffCmd. exact H.
    + intros E; injection E as <-. unfold terminalIffCmd. now rewrite Et.
  - intros E; injection E as <-. now apply elapse_terminalIffCmd.
Qed.

(** Whatever happens on the page, a terminal is mounted exactly while the
    current theme is cmd. *)
Lemma acts_terminalIffCmd (h : Host) (l : list App.Action) (pg pg' : App.Page) :
  terminalIffCmd pg -> App.acts h l pg = Js.Normal pg' -> terminalIffCmd pg'.
Proof.
  revert pg. induction l as [|a r IH]; intros pg H; simpl.
  - intros E; injection E as <-. exact H.
  - destruct (App.act h a pg) as [pg1|err] eqn:E1; [|discriminate].
    apply IH. exact (act_terminalIffCmd h a pg pg1 H E1).
Qed.

(** C3: for every line whose first token is [theme], where the tokens are
    those of the line in lower case and trimmed, and [args] are the tokens
    after the first (so the argument meant is the first of them, in lower
    case whatever the case typed).  If the first argument is one of default,
    angler, magic, cmd, [setTheme] is called exactly once, with that argument,
    and the entry appended confirms the switch: it reads
    [Theme switched to: <argument>] after a check mark, followed by
    [Already in terminal mode!] for cmd and [Switching to normal view...]
    otherwise.  If it is any other non-empty string, [setTheme] is not called
    and the entry appended is the error [Unknown theme: <argument>].  If there
    is no first argument (or it is empty), [setTheme] is not called and the
    entry appended reads [Current theme: cmd]; and cmd is the current theme
    of the page whenever a terminal is mounted on it, whatever happened on the
    page before. *)
Theorem theme_side_channel (h : Host) (input : string) (st : State) (args : list string) :
  tokens h input = ("theme", args) ->
  Js.join " " ("theme" :: args) = Js.trim (Js.toLowerCase (engine h) input)
  /\ (forall a, Js.index args 0 = Some a -> In a themes ->
        executeCommand h input st = (logged h input (themeSwitched a) st, [SetTheme a])
        /\ textContent (themeSwitched a)
           = ("✓ Theme switched to: " ++ a
              ++ (if (a =? "cmd")%string then "Already in terminal mode!"
                  else "Switching to normal view..."))%string)
  /\ (forall a, Js.index args 0 = Some a -> a <> EmptyString -> ~ In a themes ->
        executeCommand h input st = (logged h input (unknownTheme a) st, [])
        /\ textContent (unknownTheme a) = ("Unknown theme: " ++ a)%string)
  /\ (Js.index args 0 = None \/ Js.index args 0 = Some EmptyString ->
        executeCommand h input st = (logged h input currentThemeOutput st, [])
        /\ textContent currentThemeOutput = "Current theme: cmd")
  /\ (forall actions pg,
        App.acts h actions App.start = Js.Normal pg ->
        App.terminal pg <> None -> App.currentTheme pg = "cmd").
Proof.
  intros Ht. split; [exact (tokens_rejoin h input _ _ Ht)|].
  rewrite (executeCommand_tokens h input st _ _ Ht).
  unfold dispatch; simpl String.eqb; cbv iota.
  split; [|split; [|split]];
    [| | |intros actions pg E Hm;
          assert (H0 : terminalIffCmd App.start) by (simpl; discriminate);
          pose proof (acts_terminalIffCmd h actions _ _ H0 E) as Hi;
          unfold terminalIffCmd in Hi;
          destruct (App.terminal pg); [exact Hi | now elim Hm]].
  - intros a Ha Hin. rewrite Ha.
    assert (Hne : Js.truthy (Some a) = true).
    { simpl in Hin. repeat (destruct Hin as [<-|Hin]; [reflexivity|]). elim Hin. }
    rewrite Hne, (proj2 (includes_In themes a) Hin). split; [reflexivity|].
    simpl in Hin. repeat (destruct Hin as [<-|Hin]; [reflexivity|]). elim Hin.
  - intros a Ha Hne Hnot. rewrite Ha.
    assert (Htr : Js.truthy (Some a) = true).
    { simpl. destruct (String.eqb_spec a EmptyString); [contradiction|reflexivity]. }
    rewrite Htr, (includes_not_In themes a Hnot). split; [reflexivity|].
    simpl. now rewrite append_empty_r.
  - intros [Ha|Ha]; rewrite Ha; split; reflexivity.
Qed.

Lemma theme_side_channel_witness :
  tokens host0 "theme magic" = ("theme", ["magic"])
  /\ executeCommand host0 "theme magic" (mount host0)
     = (logged host0 "theme magic" (themeSwitched "magic") (mount host0),
        [SetTheme "magic"]).
Proof.
  split; [reflexivity|].
  refine (proj1 (proj1 (proj2 (theme_side_channel host0 "theme magic" (mount host0)
                                                 ["magic"] eq_refl))
                       "magic" eq_refl _)).
  simpl. tauto.
Defined.

(** ** The cat command *)

(** C6, as the code has it: for every line whose first token is [cat], where
    the tokens are those of the line in lower case and trimmed, and [args]
    are the tokens after the first: joined with the name they are the line as
    [toLowerCase] and [trim] leave it, whatever the case typed.  One entry is
    appended and nothing is called.  If the first argument is [readme.md] the
    output is the readme, which has the heading [# Site-Portifolio].  If it is
    any other non-empty string, the output reads
    [cat: <argument>: No such file or directory], with the argument as it
    stands in the lower-cased line.  If there is none (or it is empty), the
    output reads [cat: filename: No such file or directory]. *)
Theorem cat_output (h : Host) (input : string) (st : State) (args : list string) :
  tokens h input = ("cat", args) ->
  executeCommand h input st = (logged h input (catOutput (Js.index args 0)) st, [])
  /\ Js.join " " ("cat" :: args) = Js.trim (Js.toLowerCase (engine h) input)
  /\ (Js.index args 0 = Some "readme.md" ->
        catOutput (Js.index args 0) = readmeOutput
        /\ hasText "# Site-Portifolio" readmeOutput = true)
  /\ (forall a, Js.index args 0 = Some a -> a <> "readme.md" -> a <> EmptyString ->
        textContent (catOutput (Js.index args 0))
        = ("cat: " ++ a ++ ": No such file or directory")%string)
  /\ (Js.index args 0 = None \/ Js.index args 0 = Some EmptyString ->
        textContent (catOutput (Js.index args 0))
        = "cat: filename: No such file or directory").
Proof.
  intros Ht. split; [|split; [|split; [|split]]].
  - rewrite (executeCommand_tokens h input st _ _ Ht). reflexivity.
  - exact (tokens_rejoin h input _ _ Ht).
  - intros ->. split; reflexivity.
  - intros a -> Hr He. unfold catOutput, noSuchFile.
    destruct (String.eqb_spec a "readme.md"); [contradiction|].
    unfold Js.orElse. destruct (String.eqb_spec a EmptyString); [contradiction|].
    simpl. reflexivity.
  - intros [-> | ->]; reflexivity.
Qed.

Lemma cat_output_witness :
  tokens host0 "cat nonexistent.txt" = ("cat", ["nonexistent.txt"])
  /\ textContent (catOutput (Js.index ["nonexistent.txt"] 0))
     = "cat: nonexistent.txt: No such file or directory".
Proof.
  split; [reflexivity|].
  refine (proj1 (proj2 (proj2 (proj2
            (cat_output host0 "cat nonexistent.txt" (mount host0) ["nonexistent.txt"]
                        eq_refl))))
          "nonexistent.txt" eq_refl _ _); discriminate.
Defined.

(** C6, refuted as stated: the line [cat FOO.TXT] names a file other than the
    readme, and the output does not echo the argument as it was typed: it
    reads [cat: foo.txt: No such file or directory]. *)
Lemma cat_echo_counterexample :
  exists out,
    executeCommand host0 "cat FOO.TXT" (mount host0)
    = (logged host0 "cat FOO.TXT" out (mount host0), [])
    /\ textContent out = "cat: foo.txt: No such file or directory"
    /\ textContent out <> "cat: FOO.TXT: No such file or directory".
Proof.
  eexists. split; [reflexivity|]. split; [reflexivity|]. discriminate.
Qed.

(** ** The projects command *)

Lemma textsOfClass_Elem (cls tag k : string) (cs : list Node) :
  textsOfClass cls (Elem tag k cs)
  = (if String.eqb k cls then [textContent (Elem tag k cs)] else [])
    ++ flat_map (textsOfClass cls) cs.
Proof.
  simpl. f_equal.
Qed.

Lemma listedTitles_whenPresent (v : option string) (cls label : string) :
  String.eqb cls "text-cyan-400 font-semibold" = false ->
  flat_map listedTitles (whenPresent v cls label) = [].
Proof.
  intros H. destruct v as [s|]; simpl; [|reflexivity].
  destruct (String.eqb s EmptyString); simpl; [reflexivity|].
  unfold listedTitles, div. rewrite textsOfClass_Elem, H. reflexivity.
Qed.

Lemma listedTitles_projectCard (project : Api.Project) :
  listedTitles (projectCard project) = [Api.title project].
Proof.
  unfold listedTitles, projectCard, div.
  rewrite textsOfClass_Elem. cbn [String.eqb Ascii.eqb Bool.eqb app flat_map].
  rewrite flat_map_app.
  change (textsOfClass "text-cyan-400 font-semibold") with listedTitles.
  rewrite !listedTitles_whenPresent by reflexivity.
  simpl. now rewrite append_empty_r.
Qed.

Lemma listedTitles_cards (ps : list Api.Project) :
  flat_map listedTitles (map projectCard ps) = map Api.title ps.
Proof.
  induction ps as [|q r IH]; cbn [map flat_map]; [reflexivity|].
  now rewrite listedTitles_projectCard, IH.
Qed.

Lemma listedTitles_projectsOutput (ps : list Api.Project) :
  ps <> [] -> listedTitles (projectsOutput ps) = map Api.title ps.
Proof.
  intros H. destruct ps as [|q r]; [contradiction|].
  unfold projectsOutput.
  replace (Z.of_nat (length (q :: r)) >? 0) with true
    by (symmetry; apply Z.gtb_lt; simpl length; lia).
  unfold listedTitles at 1, div.
  rewrite textsOfClass_Elem. cbn [String.eqb Ascii.eqb Bool.eqb app flat_map].
  rewrite !textsOfClass_Elem.
  cbn [String.eqb Ascii.eqb Bool.eqb app flat_map textsOfClass].
  rewrite app_nil_r. apply listedTitles_cards.
Qed.

(** C7, as the code has it: for every line whose first token is [projects].
    While the cached list is empty (the request has not completed, or it
    completed with no item) one entry is appended whose output holds the text
    [Loading projects from database...] and lists no title.  Once the request
    has resolved with a non-empty list, the output lists exactly the titles of
    those items, in order.  When the request has failed, the cache holds the
    two demonstration projects, and the output lists their titles,
    [Portfolio Terminal] and [Full Stack Dashboard]. *)
Theorem projects_output (h : Host) (input : string) (st : State) (args : list string) :
  tokens h input = ("projects", args) ->
  (projects st = [] ->
     executeCommand h input st = (logged h input (projectsOutput []) st, [])
     /\ hasText "Loading projects from database..." (projectsOutput []) = true
     /\ listedTitles (projectsOutput []) = [])
  /\ (forall data, data <> [] ->
        executeCommand h input (fetchResolved data st)
        = (logged h input (projectsOutput data) (fetchResolved data st), [])
        /\ listedTitles (projectsOutput data) = map Api.title data)
  /\ (forall h',
        executeCommand h input (fetchRejected h' st)
        = (logged h input (projectsOutput (mockProjects h')) (fetchRejected h' st), [])
        /\ listedTitles (projectsOutput (mockProjects h'))
           = ["Portfolio Terminal"; "Full Stack Dashboard"]).
Proof.
  intros Ht.
  assert (E : forall st0, executeCommand h input st0
                          = (logged h input (projectsOutput (projects st0)) st0, [])).
  { intros st0. rewrite (executeCommand_tokens h input st0 _ _ Ht). reflexivity. }
  split; [|split].
  - intros Hp. rewrite E, Hp. repeat split.
  - intros data Hd. rewrite E. split; [reflexivity|].
    now apply listedTitles_projectsOutput.
  - intros h'. rewrite E. split; reflexivity.
Qed.

Lemma projects_output_witness :
  tokens host0 "projects" = ("projects", [])
  /\ executeCommand host0 "projects" (mount host0)
     = (logged host0 "projects" (projectsOutput []) (mount host0), []).
Proof.
  split; [reflexivity|].
  exact (proj1 (proj1 (projects_output host0 "projects" (mount host0) [] eq_refl) eq_refl)).
Defined.

(** C7, refuted as stated: when the request made at mount fails, the cache
    is not empty, and [projects] does not answer with the loading
    placeholder: it lists the two demonstration projects. *)
Lemma projects_after_failure_counterexample :
  exists out,
    executeCommand host0 "projects" (fetchRejected host0 (mount host0))
    = (logged host0 "projects" out (fetchRejected host0 (mount host0)), [])
    /\ hasText "Loading projects from database..." out = false
    /\ listedTitles out = ["Portfolio Terminal"; "Full Stack Dashboard"].
Proof.
  eexists. split; [reflexivity|]. split; reflexivity.
Qed.

(** ** The exit command and its timer *)

(** The calls a case of the switch makes: none, or one [setTheme] in the
    [theme] case, or one [setTimeout] in the [exit] case. *)
Lemma dispatch_effects (h : Host) (st : State) (cmd : string) (args : list string) :
  match dispatch h st cmd args with
  | Return _ => True
  | Break _ effects =>
      effects = []
      \/ (cmd = "theme" /\ exists a, In a themes /\ effects = [SetTheme a])
      \/ (cmd = "exit" /\ effects = [SetTimeout (ThenSetTheme "default") 1000])
  end.
Proof.
  unfold dispatch.
  repeat match goal with
         | |- context [if String.eqb cmd ?name then _ else _] =>
             destruct (String.eqb_spec cmd name) as [?E|?E]
         end;
    try (left; reflexivity); try exact I.
  - destruct (Js.index args 0) as [a|]; [|left; reflexivity].
    destruct (Js.truthy (Some a)); [|left; reflexivity].
    destruct (Js.includes themes a) eqn:Hin; [|left; reflexivity].
    right; left. split; [assumption|]. exists a. split; [|reflexivity].
    now apply includes_In.
  - right; right. split; [assumption | reflexivity].
Qed.

(** C8, as the code has it.  For every line whose first token is [exit], one
    entry is appended, whose output is the transition message
    [Exiting terminal mode...] followed by
    [Switching to default portfolio view], and exactly one call leaves the
    component: [setTimeout] with the callback that sets the theme to default
    and a delay of 1000 ms.  For every other line no [setTimeout] is called:
    whatever leaves the component is a direct [setTheme].  The timer is not
    tied to the terminal: a change of theme that unmounts the terminal leaves
    the timers the terminal has set pending as they are, and a timer that is
    due runs its callback, calling [setTheme] with default, whether or not a
    terminal is mounted. *)
Theorem exit_timer (h : Host) (input : string) (st : State) :
  (fst (tokens h input) = "exit" ->
     executeCommand h input st
     = (logged h input exitOutput st, [SetTimeout (ThenSetTheme "default") 1000])
     /\ textContent exitOutput
        = "Exiting terminal mode...Switching to default portfolio view"
     /\ hasText "Exiting terminal mode..." exitOutput = true)
  /\ (fst (tokens h input) <> "exit" ->
        forall eff, In eff (snd (executeCommand h input st)) ->
                    exists theme, eff = SetTheme theme)
  /\ (forall pg theme, theme <> "cmd" ->
        App.terminal (App.setTheme h theme pg) = None
        /\ App.terminalTimers (App.setTheme h theme pg) = App.terminalTimers pg)
  /\ (forall theme calls,
        App.elapse h 1000 (App.mkPage theme None [(1000, ThenSetTheme "default")] calls)
        = App.mkPage "default" None [] (calls ++ ["default"])).
Proof.
  split; [|split; [|split]].
  - intros H. rewrite executeCommand_dispatch, H. repeat split.
  - intros H eff. rewrite executeCommand_dispatch.
    pose proof (dispatch_effects h st (fst (tokens h input)) (snd (tokens h input))) as D.
    destruct (dispatch h st (fst (tokens h input)) (snd (tokens h input)))
      as [out effs|st']; simpl; [|tauto].
    destruct D as [-> | [[_ [a [_ ->]]] | [E _]]].
    + simpl; tauto.
    + simpl. intros [<-|[]]. now exists a.
    + contradiction.
  - intros pg theme Hc. unfold App.setTheme; simpl.
    destruct (String.eqb_spec theme "cmd"); [contradiction|]. split; reflexivity.
  - intros theme calls. reflexivity.
Qed.

Lemma exit_timer_witness :
  fst (tokens host0 "exit") = "exit"
  /\ executeCommand host0 "exit" (mount host0)
     = (logged host0 "exit" exitOutput (mount host0),
        [SetTimeout (ThenSetTheme "default") 1000]).
Proof.
  split; [reflexivity|].
  exact (proj1 (proj1 (exit_timer host0 "exit" (mount host0)) eq_refl)).
Defined.

(** C8, refuted as stated: the terminal is opened, [exit] is submitted, and
    within the second [theme magic] is submitted, which unmounts the terminal.
    The timer set by [exit] is still pending on the page, and when its delay
    has elapsed it calls [setTheme] with default: the theme just chosen is
    replaced, with no terminal mounted. *)
Lemma exit_timer_survives_teardown_counterexample :
  exists pg,
    App.acts host0
      [ App.Select "cmd";
        App.Terminal (Change "exit"); App.Terminal Submit;
        App.Terminal (Change "theme magic"); App.Terminal Submit ]
      App.start = Js.Normal pg
    /\ App.terminal pg = None
    /\ App.currentTheme pg = "magic"
    /\ App.terminalTimers pg = [(1000, ThenSetTheme "default")]
    /\ App.act host0 (App.Elapse 1000) pg
       = Js.Normal (App.mkPage "default" None [] ["cmd"; "magic"; "default"]).
Proof.
  eexists. split; [reflexivity|]. repeat split.
Qed.

(** * Facts about recall *)

Lemma index_app_last {A : Type} (l : list A) (x : A) (r : list A) :
  Js.index (l ++ x :: r) (Z.of_nat (length l)) = Some x.
Proof.
  unfold Js.index.
  replace (Z.of_nat (length l) <? 0) with false by (symmetry; apply Z.ltb_ge; lia).
  rewrite Nat2Z.id, nth_error_app2 by lia.
  now rewrite Nat.sub_diag.
Qed.

Lemma index_in_range {A : Type} (l : list A) (i : Z) :
  0 <= i < Z.of_nat (length l) -> exists x, Js.index l i = Some x.
Proof.
  intros H. unfold Js.index.
  replace (i <? 0) with false by (symmetry; apply Z.ltb_ge; lia).
  destruct (nth_error l (Z.to_nat i)) as [x|] eqn:E; [now exists x|].
  apply nth_error_None in E. lia.
Qed.

(** The cases that return from inside the switch are [clear] and the empty
    token; every other token leaves it by [break]. *)
Lemma dispatch_break (h : Host) (st : State) (cmd : string) (args : list string) :
  cmd <> "clear" -> cmd <> EmptyString ->
  exists output effects, dispatch h st cmd args = Break output effects.
Proof.
  intros Hc He. unfold dispatch.
  repeat match goal with
         | |- context [if String.eqb cmd ?name then _ else _] =>
             destruct (String.eqb_spec cmd name) as [?E|?E]
         end;
    try contradiction; try (eexists; eexists; reflexivity).
  destruct (Js.index args 0) as [a|]; [|eexists; eexists; reflexivity].
  destruct (Js.truthy (Some a)); [|eexists; eexists; reflexivity].
  destruct (Js.includes themes a); eexists; eexists; reflexivity.
Qed.

Lemma dispatch_return (h : Host) (st st' : State) (cmd : string) (args : list string) :
  dispatch h st cmd args = Return st' ->
  currentInput st' = currentInput st
  /\ commandHistory st' = commandHistory st
  /\ historyIndex st' = historyIndex st.
Proof.
  unfold dispatch.
  repeat match goal with
         | |- context [if String.eqb cmd ?name then _ else _] =>
             destruct (String.eqb_spec cmd name) as [?E|?E]
         end;
    try discriminate.
  - destruct (Js.index args 0) as [a|]; [|discriminate].
    destruct (Js.truthy (Some a)); [|discriminate].
    destruct (Js.includes themes a); discriminate.
  - intros H; injection H as <-. repeat split.
  - intros H; injection H as <-. repeat split.
Qed.

(** [executeCommand] keeps the cursor in range, and never stores
    [undefined] in the input field. *)
Lemma executeCommand_cursor (h : Host) (input : string) (st : State) :
  cursorInRange st ->
  cursorInRange (fst (executeCommand h input st))
  /\ currentInput (fst (executeCommand h input st)) = currentInput st.
Proof.
  intros H. rewrite executeCommand_dispatch.
  destruct (dispatch h st (fst (tokens h input)) (snd (tokens h input)))
    as [out effs|st'] eqn:D; simpl.
  - split; [|reflexivity]. unfold cursorInRange; simpl.
    rewrite length_app; simpl. lia.
  - apply dispatch_return in D as (Hi & Hh & Hx).
    split; [|assumption]. unfold cursorInRange in *. rewrite Hh, Hx. exact H.
Qed.

Lemma handleKeyDown_cursor (key : string) (st : State) :
  cursorInRange st -> currentInput st <> None ->
  cursorInRange (handleKeyDown key st) /\ currentInput (handleKeyDown key st) <> None.
Proof.
  unfold cursorInRange, handleKeyDown. intros H Hin.
  destruct (String.eqb key "ArrowUp").
  - destruct (Z.ltb_spec (historyIndex st) (Z.of_nat (length (commandHistory st)) - 1));
      [|tauto].
    simpl. split; [lia|].
    destruct (index_in_range (commandHistory st)
                (Z.of_nat (length (commandHistory st)) - 1 - (historyIndex st + 1)))
      as [x ->]; [lia | discriminate].
  - destruct (String.eqb key "ArrowDown"); [|tauto].
    destruct (Z.gtb_spec (historyIndex st) 0).
    + simpl. split; [lia|].
      destruct (index_in_range (commandHistory st)
                  (Z.of_nat (length (commandHistory st)) - 1 - (historyIndex st - 1)))
        as [x ->]; [lia | discriminate].
    + destruct (Z.eqb_spec (historyIndex st) 0); [|tauto].
      simpl. split; [lia | discriminate].
Qed.

(** Every event is handled without an exception from a state whose cursor is
    in range and whose input field holds a string, and leads to such a state. *)
Lemma handle_cursor (h : Host) (e : Event) (st : State) :
  cursorInRange st -> currentInput st <> None ->
  exists st' effects,
    handle h e st = Js.Normal (st', effects)
    /\ cursorInRange st' /\ currentInput st' <> None.
Proof.
  intros H Hin. destruct e as [value|key| | |data|]; simpl.
  - eexists; eexists. split; [reflexivity|]. split; [exact H | discriminate].
  - eexists; eexists. split; [reflexivity|]. now apply handleKeyDown_cursor.
  - unfold handleSubmit. destruct (currentInput st) as [s|] eqn:Es; [|now elim Hin].
    destruct (Js.truthy (Some (Js.trim s))).
    + pose proof (executeCommand_cursor h s st H) as [Hc _].
      destruct (executeCommand h s st) as [st' effs]. simpl in Hc.
      eexists; eexists. split; [reflexivity|]. split; [exact Hc | discriminate].
    + eexists; eexists. split; [reflexivity|]. split; [exact H|]. rewrite Es. discriminate.
  - eexists; eexists. split; [reflexivity|]. split; assumption.
  - eexists; eexists. split; [reflexivity|]. split; assumption.
  - eexists; eexists. split; [reflexivity|]. split; assumption.
Qed.

Lemma handleAll_cursor (l : list (Host * Event)) (st : State) :
  cursorInRange st -> currentInput st <> None ->
  exists st', handleAll l st = Js.Normal st' /\ cursorInRange st'.
Proof.
  revert st. induction l as [|[h e] r IH]; intros st H Hin; simpl.
  - now exists st.
  - destruct (handle_cursor h e st H Hin) as (st' & effs & -> & H' & Hin').
    now apply IH.
Qed.

(** C4: whatever events a mounted terminal is given (keys, ArrowUp and
    ArrowDown among them, changes of the input field, submissions and so
    command executions, the exit button, the outcome of the request for the
    projects), in whatever order, every one is handled without an exception
    and the recall cursor of the state reached is within -1 and the length of
    the input history minus one; and ArrowDown pressed when the cursor is -1
    changes nothing: cursor, input field and the rest of the state stay as
    they are. *)
Theorem recall_cursor_in_range (h : Host) (l : list (Host * Event)) :
  (exists st,
     handleAll l (mount h) = Js.Normal st
     /\ -1 <= historyIndex st <= Z.of_nat (length (commandHistory st)) - 1)
  /\ (forall cmds field hist projs,
        handleKeyDown "ArrowDown" (mkState cmds field hist (-1) projs)
        = mkState cmds field hist (-1) projs).
Proof.
  split.
  - apply handleAll_cursor.
    + unfold cursorInRange; simpl; lia.
    + discriminate.
  - reflexivity.
Qed.

(** ** Submitting lines and recalling them *)

(** A line the interpreter records: its first token is neither empty nor
    [clear]. *)
Lemma submitLine_records (h : Host) (line : string) (st : State) :
  fst (tokens h line) <> EmptyString -> fst (tokens h line) <> "clear" ->
  exists st' effects,
    submitLine h line st = Js.Normal (st', effects)
    /\ commandHistory st' = commandHistory st ++ [line]
    /\ historyIndex st' = -1.
Proof.
  intros He Hc. rewrite (submitLine_executes h line st He).
  rewrite executeCommand_dispatch.
  destruct (dispatch_break h (setCurrentInput (Some line) st)
              (fst (tokens h line)) (snd (tokens h line)) Hc He) as (out & effs & ->).
  eexists; eexists. split; [reflexivity|]. split; reflexivity.
Qed.

Lemma submitAll_history (l : list (Host * string)) (st : State) :
  Forall (fun hl => fst (tokens (fst hl) (snd hl)) <> EmptyString
                    /\ fst (tokens (fst hl) (snd hl)) <> "clear") l ->
  historyIndex st = -1 ->
  exists st',
    submitAll l st = Js.Normal st'
    /\ commandHistory st' = commandHistory st ++ map snd l
    /\ historyIndex st' = -1.
Proof.
  revert st. induction l as [|[h line] r IH]; intros st Hall Hi; simpl.
  - exists st. rewrite app_nil_r. auto.
  - inversion Hall as [|? ? [He Hc] Hr]; subst. simpl in He, Hc.
    destruct (submitLine_records h line st He Hc) as (st1 & effs & -> & Hh & Hi1).
    destruct (IH st1 Hr Hi1) as (st2 & E & Hh2 & Hi2).
    exists st2. split; [exact E|]. split; [|exact Hi2].
    rewrite Hh2, Hh, <- app_assoc. reflexivity.
Qed.

(** With [b] already recalled and [a] still ahead, as many presses of ArrowUp
    as [a] has entries put them into the input field from its last to its
    first. *)
Lemma recalls_rev (a : list string) :
  forall (b : list string) (st : State),
    commandHistory st = a ++ b ->
    historyIndex st = Z.of_nat (length b) - 1 ->
    recalls (length a) st = map Some (rev a).
Proof.
  induction a as [|x a' IH] using rev_ind; intros b st Hh Hi; [reflexivity|].
  rewrite length_app, Nat.add_comm. cbn [length Nat.add recalls].
  rewrite rev_app_distr. cbn [rev app map].
  assert (Hlen : Z.of_nat (length (commandHistory st))
                 = Z.of_nat (length a') + 1 + Z.of_nat (length b)).
  { rewrite Hh, !length_app. simpl. lia. }
  assert (Hup : handleKeyDown "ArrowUp" st
                = mkState (commands st) (Some x) (commandHistory st)
                          (Z.of_nat (length b)) (projects st)).
  { unfold handleKeyDown. cbn [String.eqb Ascii.eqb Bool.eqb].
    replace (historyIndex st <? Z.of_nat (length (commandHistory st)) - 1) with true
      by (symmetry; apply Z.ltb_lt; lia).
    f_equal; [|lia].
    replace (Z.of_nat (length (commandHistory st)) - 1 - (historyIndex st + 1))
      with (Z.of_nat (length a')) by lia.
    rewrite Hh, <- app_assoc. apply index_app_last. }
  rewrite Hup. cbn [currentInput]. f_equal.
  apply (IH (x :: b)).
  - cbn [commandHistory]. rewrite Hh, <- app_assoc. reflexivity.
  - cbn [historyIndex length]. lia.
Qed.

(** C5, as the code has it: lines whose first token is neither empty nor
    [clear], submitted one after the other to a freshly mounted terminal, are
    all handled without an exception and leave an input history that holds
    exactly those lines, as typed, in the order of submission; and as many
    presses of ArrowUp as there are lines then put them into the input field
    one by one, the most recent first. *)
Theorem submit_then_recall (h : Host) (lines : list (Host * string)) :
  Forall (fun hl => fst (tokens (fst hl) (snd hl)) <> EmptyString
                    /\ fst (tokens (fst hl) (snd hl)) <> "clear") lines ->
  exists st,
    submitAll lines (mount h) = Js.Normal st
    /\ commandHistory st = map snd lines
    /\ recalls (length lines) st = map Some (rev (map snd lines)).
Proof.
  intros Hall.
  destruct (submitAll_history lines (mount h) Hall eq_refl) as (st & E & Hh & Hi).
  exists st. split; [exact E|]. simpl in Hh. split; [exact Hh|].
  rewrite <- (length_map snd lines).
  apply (recalls_rev (map snd lines) [] st).
  - now rewrite app_nil_r.
  - rewrite Hi. reflexivity.
Qed.

Lemma submit_then_recall_witness :
  exists st,
    submitAll [(host0, "help"); (host0, "cat README.md"); (host0, "nope")] (mount host0)
    = Js.Normal st
    /\ commandHistory st = ["help"; "cat README.md"; "nope"]
    /\ recalls 3 st = [Some "nope"; Some "cat README.md"; Some "help"].
Proof.
  apply (submit_then_recall host0
           [(host0, "help"); (host0, "cat README.md"); (host0, "nope")]).
  repeat constructor; simpl; discriminate.
Defined.

(** C5, refuted as stated: [clear] is one non-empty command line, distinct
    from no other; submitted to a freshly mounted terminal it leaves the input
    history empty, so the history is not the list of the lines submitted, and
    one press of ArrowUp puts nothing into the input field. *)
Lemma submit_then_recall_counterexample :
  NoDup ["clear"]
  /\ Forall (fun line => line <> EmptyString) ["clear"]
  /\ exists st,
       submitAll [(host0, "clear")] (mount host0) = Js.Normal st
       /\ commandHistory st = []
       /\ commandHistory st <> ["clear"]
       /\ recalls 1 st <> [Some "clear"].
Proof.
  split; [repeat constructor; simpl; tauto|].
  split; [repeat constructor; discriminate|].
  eexists. split; [reflexivity|]. repeat split; discriminate.
Qed.

(** ** Case of the line typed *)

Lemma tokens_ascii (h : Host) (input : string) :
  Js.isAscii input = true ->
  tokens h input = Js.split " " (Js.trim (Js.asciiLowerCase input)).
Proof. intros H. unfold tokens. now rewrite Js.lower_ascii. Qed.

(** C10: [executeCommand] reads the line only through its lower-case form:
    its tokens are the pieces of the whole line in lower case and trimmed, so
    the name and the arguments are matched whatever their case, and two lines
    that differ only in case (that [toLowerCase] maps to the same string) take
    the same case of the switch, with the same output and the same calls.
    What is stored is the line itself: the entry appended to the session log
    and the string appended to the input history are the raw input, whichever
    case breaks out of the switch, the default one included, and a press of
    ArrowUp right after puts that raw input back into the input field.  So
    [CAT README.MD] shows the readme, [theme MAGIC] calls [setTheme] with
    magic, and [Sudo  RM] is answered with command not found for [sudo],
    each recorded as typed. *)
Theorem lowercase_dispatch_raw_record (h : Host) (input other : string) (st : State) :
  Js.toLowerCase (engine h) other = Js.toLowerCase (engine h) input ->
  Js.join " " (fst (tokens h input) :: snd (tokens h input))
  = Js.trim (Js.toLowerCase (engine h) input)
  /\ tokens h other = tokens h input
  /\ match dispatch h st (fst (tokens h input)) (snd (tokens h input)) with
     | Return st' =>
         executeCommand h input st = (st', [])
         /\ executeCommand h other st = (st', [])
     | Break out effects =>
         executeCommand h input st = (logged h input out st, effects)
         /\ executeCommand h other st = (logged h other out st, effects)
         /\ commands (logged h input out st)
            = commands st ++ [mkCommand input out (now h)]
         /\ commandHistory (logged h input out st) = commandHistory st ++ [input]
         /\ currentInput (handleKeyDown "ArrowUp" (logged h input out st)) = Some input
     end
  /\ executeCommand h "CAT README.MD" st
     = (logged h "CAT README.MD" readmeOutput st, [])
  /\ executeCommand h "theme MAGIC" st
     = (logged h "theme MAGIC" (themeSwitched "magic") st, [SetTheme "magic"])
  /\ executeCommand h "Sudo  RM" st
     = (logged h "Sudo  RM" (notFound "sudo") st, []).
Proof.
  intros Hl.
  assert (Ht : tokens h other = tokens h input) by (unfold tokens; now rewrite Hl).
  split; [apply (tokens_rejoin h input); now destruct (tokens h input)|].
  split; [exact Ht|].
  assert (T1 : tokens h "CAT README.MD" = ("cat", ["readme.md"]))
    by (rewrite tokens_ascii by reflexivity; reflexivity).
  assert (T2 : tokens h "theme MAGIC" = ("theme", ["magic"]))
    by (rewrite tokens_ascii by reflexivity; reflexivity).
  assert (T3 : tokens h "Sudo  RM" = ("sudo", [EmptyString; "rm"]))
    by (rewrite tokens_ascii by reflexivity; reflexivity).
  split;
    [|rewrite (executeCommand_tokens h _ st _ _ T1),
              (executeCommand_tokens h _ st _ _ T2),
              (executeCommand_tokens h _ st _ _ T3); repeat split].
  rewrite !executeCommand_dispatch, Ht.
  destruct (dispatch h st (fst (tokens h input)) (snd (tokens h input))) as [out effs|st'].
  - repeat split.
    unfold handleKeyDown, logged. cbn [String.eqb Ascii.eqb Bool.eqb].
    cbn [commandHistory historyIndex].
    replace (-1 <? Z.of_nat (length (commandHistory st ++ [input])) - 1) with true
      by (symmetry; apply Z.ltb_lt; rewrite length_app; simpl; lia).
    cbn [currentInput].
    replace (Z.of_nat (length (commandHistory st ++ [input])) - 1 - (-1 + 1))
      with (Z.of_nat (length (commandHistory st)))
      by (rewrite length_app; simpl; lia).
    apply index_app_last.
  - split; reflexivity.
Qed.

Lemma lowercase_dispatch_raw_record_witness :
  Js.toLowerCase (engine host0) "CAT Readme.MD" = Js.toLowerCase (engine host0) "cat readme.md"
  /\ executeCommand host0 "CAT Readme.MD" (mount host0)
     = (logged host0 "CAT Readme.MD" readmeOutput (mount host0), []).
Proof.
  split; [reflexivity|].
  exact (proj1 (proj2 (proj1 (proj2 (proj2
           (lowercase_dispatch_raw_record host0 "cat readme.md" "CAT Readme.MD"
              (mount host0) eq_refl)))))).
Defined.

(** * Further properties of the terminal *)

(** ** The registry and the switch *)

(** X1: every name of the command set other than [clear] has a case of its
    own in the switch: a line whose first token is such a name is answered
    with one appended entry whose output is not the answer of the default
    case. *)
Theorem known_command_is_found (h : Host) (input : string) (st : State) :
  In (fst (tokens h input)) commandSet ->
  fst (tokens h input) <> "clear" ->
  exists out effects,
    executeCommand h input st = (logged h input out st, effects)
    /\ out <> notFound (fst (tokens h input)).
Proof.
  intros Hin Hc. rewrite executeCommand_dispatch.
  unfold commandSet in Hin. simpl in Hin.
  repeat (destruct Hin as [E|Hin];
          [ rewrite <- E in *; clear E;
            try (now elim Hc);
            unfold dispatch; cbn [String.eqb Ascii.eqb Bool.eqb];
            try (eexists; eexists; split; [reflexivity | discriminate]) | ]);
    try contradiction.
  - destruct (Js.index (snd (tokens h input)) 0) as [a|]; unfold catOutput.
    + destruct (String.eqb a "readme.md");
        eexists; eexists; (split; [reflexivity | discriminate]).
    + eexists; eexists; split; [reflexivity | discriminate].
  - destruct (Js.index (snd (tokens h input)) 0) as [a|].
    + destruct (Js.truthy (Some a)); [destruct (Js.includes themes a)|];
        eexists; eexists; (split; [reflexivity | discriminate]).
    + eexists; eexists; split; [reflexivity | discriminate].
Qed.

Lemma known_command_is_found_witness :
  exists out effects,
    executeCommand host0 "LS -la" (mount host0)
    = (logged host0 "LS -la" out (mount host0), effects)
    /\ out <> notFound "ls".
Proof.
  apply (known_command_is_found host0 "LS -la" (mount host0)).
  - simpl. tauto.
  - discriminate.
Defined.

(** X2: for every line whose first token is [help], one entry is appended
    and nothing is called, and the names the output lists, in order, are
    exactly the names the switch has a case for. *)
Theorem help_lists_command_set (h : Host) (input : string) (st : State) :
  fst (tokens h input) = "help" ->
  executeCommand h input st = (logged h input helpOutput st, [])
  /\ textsOfClass "text-cyan-400 w-16" helpOutput = commandSet.
Proof.
  intros H. rewrite executeCommand_dispatch, H. split; reflexivity.
Qed.

Lemma help_lists_command_set_witness :
  executeCommand host0 " Help " (mount host0)
  = (logged host0 " Help " helpOutput (mount host0), []).
Proof.
  exact (proj1 (help_lists_command_set host0 " Help " (mount host0) eq_refl)).
Defined.

(** ** What the handlers leave alone *)

Lemma executeCommand_history (h : Host) (input : string) (st : State) :
  exists suffix,
    commandHistory (fst (executeCommand h input st)) = commandHistory st ++ suffix
    /\ projects (fst (executeCommand h input st)) = projects st.
Proof.
  rewrite executeCommand_dispatch.
  destruct (dispatch h st (fst (tokens h input)) (snd (tokens h input)))
    as [out effs|st'] eqn:D; simpl.
  - exists [input]. split; reflexivity.
  - exists []. rewrite app_nil_r.
    pose proof (dispatch_return h st st' _ _ D) as (_ & Hh & _).
    split; [exact Hh|].
    revert D. unfold dispatch.
    repeat match goal with
           | |- context [if String.eqb ?c ?name then _ else _] =>
               destruct (String.eqb c name)
           end;
      try discriminate;
      try (intros D; injection D as <-; reflexivity).
    destruct (Js.index (snd (tokens h input)) 0) as [a|]; [|discriminate].
    destruct (Js.truthy (Some a)); [|discriminate].
    destruct (Js.includes themes a); discriminate.
Qed.

Lemma handle_history (h : Host) (e : Event) (st st' : State) (effs : list Effect) :
  handle h e st = Js.Normal (st', effs) ->
  exists suffix, commandHistory st' = commandHistory st ++ suffix.
Proof.
  destruct e as [value|key| | |data|]; simpl.
  - intros E; injection E as <- _. exists []. now rewrite app_nil_r.
  - intros E; injection E as <- _. exists []. rewrite app_nil_r.
    unfold handleKeyDown.
    destruct (String.eqb key "ArrowUp");
      [destruct (historyIndex st <? _); reflexivity|].
    destruct (String.eqb key "ArrowDown"); [|reflexivity].
    destruct (historyIndex st >? 0); [reflexivity|].
    destruct (historyIndex st =? 0); reflexivity.
  - unfold handleSubmit. destruct (currentInput st) as [s|]; [|discriminate].
    destruct (Js.truthy (Some (Js.trim s))).
    + destruct (executeCommand_history h s st) as (suffix & Hs & _).
      destruct (executeCommand h s st) as [st1 effs1]. simpl in Hs.
      intros E; injection E as <- _. now exists suffix.
    + intros E; injection E as <- _. exists []. now rewrite app_nil_r.
  - intros E; injection E as <- _. exists []. now rewrite app_nil_r.
  - intros E; injection E as <- _. exists []. now rewrite app_nil_r.
  - intros E; injection E as <- _. exists []. now rewrite app_nil_r.
Qed.

(** X3: the input history never loses an entry and is never rewritten: over
    any run of events that the terminal handles, from any state, the history
    at the end is the history at the start with entries added at its end. *)
Theorem history_only_grows (l : list (Host * Event)) (st st' : State) :
  handleAll l st = Js.Normal st' ->
  exists suffix, commandHistory st' = commandHistory st ++ suffix.
Proof.
  revert st. induction l as [|[h e] r IH]; intros st; simpl.
  - intros E; injection E as <-. exists []. now rewrite app_nil_r.
  - destruct (handle h e st) as [[st1 effs]|err] eqn:E1; [|discriminate].
    intros E. destruct (handle_history h e st st1 effs E1) as (s1 & H1).
    destruct (IH st1 E) as (s2 & H2).
    exists (s1 ++ s2). now rewrite H2, H1, app_assoc.
Qed.

Lemma history_only_grows_witness :
  exists suffix,
    commandHistory (logged host0 "pwd" pwdOutput (mount host0))
    = commandHistory (mount host0) ++ suffix.
Proof.
  apply (history_only_grows
           [(host0, Change "pwd"); (host0, Submit); (host0, Change "pwd")]
           (mount host0)
           (setCurrentInput (Some "pwd") (logged host0 "pwd" pwdOutput (mount host0)))).
  reflexivity.
Defined.

Lemma handleKeyDown_frame (key : string) (st : State) :
  commands (handleKeyDown key st) = commands st
  /\ commandHistory (handleKeyDown key st) = commandHistory st
  /\ projects (handleKeyDown key st) = projects st.
Proof.
  unfold handleKeyDown.
  destruct (String.eqb key "ArrowUp");
    [destruct (historyIndex st <? _); repeat split|].
  destruct (String.eqb key "ArrowDown"); [|repeat split].
  destruct (historyIndex st >? 0); [repeat split|].
  destruct (historyIndex st =? 0); repeat split.
Qed.

(** X4: moving in the input field executes nothing: a run of key presses
    (any keys) and edits of the field is always handled without an exception
    and leaves the session log, the input history and the cached projects as
    they were, from any state. *)
Theorem navigation_executes_nothing (l : list (Host * Event)) (st : State) :
  forallb (fun he => isNavigation (snd he)) l = true ->
  exists st',
    handleAll l st = Js.Normal st'
    /\ commands st' = commands st
    /\ commandHistory st' = commandHistory st
    /\ projects st' = projects st.
Proof.
  revert st. induction l as [|[h e] r IH]; intros st H; simpl in *.
  - exists st. repeat split.
  - apply andb_prop in H as [He Hr].
    destruct e as [value|key| | |data|]; try discriminate; simpl.
    + destruct (IH (setCurrentInput (Some value) st) Hr) as (st' & E & H1 & H2 & H3).
      exists st'. repeat split; assumption.
    + destruct (IH (handleKeyDown key st) Hr) as (st' & E & H1 & H2 & H3).
      destruct (handleKeyDown_frame key st) as (F1 & F2 & F3).
      exists st'. rewrite <- F1, <- F2, <- F3. repeat split; assumption.
Qed.

Lemma navigation_executes_nothing_witness :
  exists st',
    handleAll [(host0, KeyDown "ArrowUp"); (host0, Change "ls"); (host0, KeyDown "Tab")]
              (logged host0 "pwd" pwdOutput (mount host0)) = Js.Normal st'
    /\ commands st' = commands (logged host0 "pwd" pwdOutput (mount host0))
    /\ commandHistory st' = ["pwd"]
    /\ projects st' = [].
Proof.
  apply (navigation_executes_nothing
           [(host0, KeyDown "ArrowUp"); (host0, Change "ls"); (host0, KeyDown "Tab")]
           (logged host0 "pwd" pwdOutput (mount host0))).
  reflexivity.
Defined.

(** X5: every line that is not made of white space only (the white space
    that [trim] strips) and whose first token is not [clear] is recorded in
    full when it is submitted: the session log gains exactly one entry, which
    carries the line as typed and the time of the call; the line goes to the
    end of the input history; the input field is emptied and the recall cursor
    is back at -1; the cached projects are untouched. *)
Theorem submitted_line_is_recorded (h : Host) (line : string) (st : State) :
  ~ whiteSpaceOnly line ->
  fst (tokens h line) <> "clear" ->
  exists out effects,
    submitLine h line st
    = Js.Normal (mkState (commands st ++ [mkCommand line out (now h)])
                         (Some EmptyString) (commandHistory st ++ [line]) (-1)
                         (projects st),
                 effects).
Proof.
  intros Hb Hc.
  assert (Hb' : Js.isBlank line = false).
  { destruct (Js.isBlank line) eqn:E; [|reflexivity].
    elim Hb. now apply isBlank_whiteSpaceOnly. }
  pose proof (tokens_head_nonempty h line Hb') as He.
  rewrite (submitLine_executes h line st He), executeCommand_dispatch.
  destruct (dispatch_break h (setCurrentInput (Some line) st)
              (fst (tokens h line)) (snd (tokens h line)) Hc He) as (out & effs & ->).
  exists out, effs. reflexivity.
Qed.

Lemma submitted_line_is_recorded_witness :
  exists out effects,
    submitLine host0 "  Date" (mount host0)
    = Js.Normal (mkState (commands (mount host0) ++ [mkCommand "  Date" out 0])
                         (Some EmptyString) ["  Date"] (-1) [],
                 effects).
Proof.
  apply (submitted_line_is_recorded host0 "  Date" (mount host0)).
  - intros H. apply isBlank_whiteSpaceOnly in H. discriminate H.
  - discriminate.
Defined.

(** ** Recall beyond the claims *)

Lemma up_step (st : State) (a b : list string) (x : string) :
  commandHistory st = a ++ x :: b ->
  historyIndex st = Z.of_nat (length b) - 1 ->
  handleKeyDown "ArrowUp" st
  = mkState (commands st) (Some x) (commandHistory st) (Z.of_nat (length b))
            (projects st).
Proof.
  intros Hh Hi. unfold handleKeyDown. cbn [String.eqb Ascii.eqb Bool.eqb].
  assert (Hlen : Z.of_nat (length (commandHistory st))
                 = Z.of_nat (length a) + 1 + Z.of_nat (length b)).
  { rewrite Hh, length_app. simpl. lia. }
  replace (historyIndex st <? Z.of_nat (length (commandHistory st)) - 1) with true
    by (symmetry; apply Z.ltb_lt; lia).
  f_equal; [|lia].
  replace (Z.of_nat (length (commandHistory st)) - 1 - (historyIndex st + 1))
    with (Z.of_nat (length a)) by lia.
  rewrite Hh. apply index_app_last.
Qed.

Lemma up_at_oldest (st : State) :
  historyIndex st = Z.of_nat (length (commandHistory st)) - 1 ->
  handleKeyDown "ArrowUp" st = st.
Proof.
  intros Hi. unfold handleKeyDown. cbn [String.eqb Ascii.eqb Bool.eqb].
  replace (historyIndex st <? Z.of_nat (length (commandHistory st)) - 1) with false
    by (symmetry; apply Z.ltb_ge; lia).
  reflexivity.
Qed.

Lemma recalls_at_oldest (k : nat) (st : State) :
  historyIndex st = Z.of_nat (length (commandHistory st)) - 1 ->
  recalls k st = repeat (currentInput st) k.
Proof.
  intros Hi. induction k as [|k IH]; [reflexivity|].
  cbn [recalls repeat]. rewrite (up_at_oldest st Hi), IH. reflexivity.
Qed.

Lemma recalls_plus (n m : nat) (st : State) :
  recalls (n + m) st = recalls n st ++ recalls m (presses "ArrowUp" n st).
Proof.
  revert st. induction n as [|n IH]; intros st; [reflexivity|].
  cbn [Nat.add recalls presses app]. now rewrite IH.
Qed.

Lemma presses_S (key : string) (n : nat) (st : State) :
  presses key (S n) st = presses key n (handleKeyDown key st).
Proof. reflexivity. Qed.

Lemma recalls_S (n : nat) (st : State) :
  recalls (S n) st
  = currentInput (handleKeyDown "ArrowUp" st) :: recalls n (handleKeyDown "ArrowUp" st).
Proof. reflexivity. Qed.

Lemma recallsNext_S (n : nat) (st : State) :
  recallsNext (S n) st
  = currentInput (handleKeyDown "ArrowDown" st)
    :: recallsNext n (handleKeyDown "ArrowDown" st).
Proof. reflexivity. Qed.

(** The state that as many presses of ArrowUp as [a] has entries lead to,
    with [b] already recalled and [a] still ahead, below [pre]. *)
Lemma presses_up (a : list string) :
  forall (pre b : list string) (x : string) (st : State),
    commandHistory st = pre ++ (x :: a) ++ b ->
    historyIndex st = Z.of_nat (length b) - 1 ->
    presses "ArrowUp" (S (length a)) st
    = mkState (commands st) (Some x) (commandHistory st)
              (Z.of_nat (length a + length b)) (projects st)
    /\ recalls (S (length a)) st = map Some (rev (x :: a)).
Proof.
  induction a as [|y a' IH] using rev_ind; intros pre b x st Hh Hi.
  - cbn [length presses recalls rev app map].
    rewrite (up_step st pre b x Hh Hi). split; reflexivity.
  - assert (Hh' : commandHistory st = (pre ++ x :: a') ++ y :: b).
    { rewrite Hh. simpl. rewrite <- ?app_assoc. reflexivity. }
    pose proof (up_step st (pre ++ x :: a') b y Hh' Hi) as Hup.
    rewrite length_app, Nat.add_comm. cbn [length Nat.add].
    rewrite (presses_S "ArrowUp" (S (length a')) st), (recalls_S (S (length a')) st).
    rewrite Hup. cbn [currentInput].
    destruct (IH pre (y :: b) x
                 (mkState (commands st) (Some y) (commandHistory st)
                          (Z.of_nat (length b)) (projects st))) as [Hp Hr].
    + cbn [commandHistory]. rewrite Hh. simpl. rewrite <- ?app_assoc. reflexivity.
    + cbn [historyIndex length]. lia.
    + rewrite Hp, Hr. cbn [commands commandHistory projects length]. split.
      * f_equal. lia.
      * cbn [rev]. rewrite rev_app_distr. reflexivity.
Qed.

(** X6: with the recall cursor at -1 and a history that is not empty, as many
    presses of ArrowUp as the history has entries put the entries into the
    input field from the newest to the oldest, and every further press puts
    the oldest entry there again: recall stops at the oldest entry and does
    not wrap around. *)
Theorem recall_stops_at_oldest (st : State) (oldest : string) (rest : list string) (k : nat) :
  commandHistory st = oldest :: rest ->
  historyIndex st = -1 ->
  recalls (S (length rest) + k) st
  = map Some (rev (oldest :: rest)) ++ repeat (Some oldest) k.
Proof.
  intros Hh Hi.
  destruct (presses_up rest [] [] oldest st) as [Hp Hr].
  - rewrite Hh, app_nil_r. reflexivity.
  - rewrite Hi. reflexivity.
  - rewrite recalls_plus, Hr, Hp. f_equal.
    apply recalls_at_oldest. cbn [historyIndex commandHistory].
    rewrite Hh. cbn [length]. lia.
Qed.

Lemma recall_stops_at_oldest_witness :
  recalls (2 + 3) (logged host0 "ls" lsOutput (logged host0 "pwd" pwdOutput (mount host0)))
  = [Some "ls"; Some "pwd"; Some "pwd"; Some "pwd"; Some "pwd"].
Proof.
  exact (recall_stops_at_oldest
           (logged host0 "ls" lsOutput (logged host0 "pwd" pwdOutput (mount host0)))
           "pwd" ["ls"] 3 eq_refl eq_refl).
Defined.

Lemma presses_down (b : list string) :
  forall (a : list string) (st : State),
    commandHistory st = a ++ b ->
    a <> [] ->
    historyIndex st = Z.of_nat (length b) ->
    presses "ArrowDown" (S (length b)) st
    = mkState (commands st) (Some EmptyString) (commandHistory st) (-1) (projects st)
    /\ recallsNext (S (length b)) st = map Some b ++ [Some EmptyString].
Proof.
  induction b as [|x b' IH]; intros a st Hh Ha Hi.
  - cbn [length presses recallsNext map app].
    unfold handleKeyDown. cbn [String.eqb Ascii.eqb Bool.eqb].
    rewrite Hi. cbn [length Z.of_nat Z.gtb Z.eqb Z.compare]. split; reflexivity.
  - assert (Hlen : Z.of_nat (length (commandHistory st))
                   = Z.of_nat (length a) + 1 + Z.of_nat (length b')).
    { rewrite Hh, length_app. simpl. lia. }
    assert (Hd : handleKeyDown "ArrowDown" st
                 = mkState (commands st) (Some x) (commandHistory st)
                           (Z.of_nat (length b')) (projects st)).
    { unfold handleKeyDown. cbn [String.eqb Ascii.eqb Bool.eqb].
      replace (historyIndex st >? 0) with true
        by (symmetry; apply Z.gtb_lt; rewrite Hi; cbn [length]; lia).
      f_equal; [|rewrite Hi; cbn [length]; lia].
      replace (Z.of_nat (length (commandHistory st)) - 1 - (historyIndex st - 1))
        with (Z.of_nat (length a)) by (rewrite Hi; cbn [length]; lia).
      rewrite Hh. apply index_app_last. }
    change (S (length (x :: b'))) with (S (S (length b'))).
    rewrite (presses_S "ArrowDown" (S (length b')) st), (recallsNext_S (S (length b')) st).
    rewrite Hd. cbn [currentInput].
    destruct (IH (a ++ [x])
                 (mkState (commands st) (Some x) (commandHistory st)
                          (Z.of_nat (length b')) (projects st))) as [Hp Hr].
    + cbn [commandHistory]. rewrite Hh, <- app_assoc. reflexivity.
    + intros E. apply app_eq_nil in E as [_ E]. discriminate.
    + reflexivity.
    + rewrite Hp, Hr. split; reflexivity.
Qed.

(** X7: going up and coming back down.  With the recall cursor at -1, going
    up by some number of entries (at least one, at most the whole history)
    and then pressing ArrowDown as many times puts the entries passed on the
    way up back into the input field in the order they were submitted, then
    empties the field; the state at the end is the state at the start with an
    empty input field, so whatever was typed there before the first ArrowUp
    is gone. *)
Theorem recall_up_then_down (st : State) (older : list string) (x : string)
        (newer : list string) :
  commandHistory st = older ++ x :: newer ->
  historyIndex st = -1 ->
  recalls (S (length newer)) st = map Some (rev (x :: newer))
  /\ recallsNext (S (length newer)) (presses "ArrowUp" (S (length newer)) st)
     = map Some newer ++ [Some EmptyString]
  /\ presses "ArrowDown" (S (length newer)) (presses "ArrowUp" (S (length newer)) st)
     = setCurrentInput (Some EmptyString) st.
Proof.
  intros Hh Hi.
  destruct (presses_up newer older [] x st) as [Hp Hr].
  - rewrite Hh, app_nil_r. reflexivity.
  - rewrite Hi. reflexivity.
  - split; [exact Hr|]. rewrite Hp.
    destruct (presses_down newer (older ++ [x])
                (mkState (commands st) (Some x) (commandHistory st)
                         (Z.of_nat (length newer + length (@nil string))) (projects st)))
      as [Hd Hn].
    + cbn [commandHistory]. rewrite Hh, <- app_assoc. reflexivity.
    + intros E. apply app_eq_nil in E as [_ E]. discriminate.
    + cbn [historyIndex length]. f_equal. lia.
    + split; [exact Hn|]. rewrite Hd. unfold setCurrentInput.
      cbn [commands commandHistory projects]. now rewrite Hi.
Qed.

Lemma recall_up_then_down_witness :
  presses "ArrowDown" 1
    (presses "ArrowUp" 1 (setCurrentInput (Some "half a li")
                            (logged host0 "pwd" pwdOutput (mount host0))))
  = setCurrentInput (Some EmptyString)
      (setCurrentInput (Some "half a li") (logged host0 "pwd" pwdOutput (mount host0))).
Proof.
  exact (proj2 (proj2 (recall_up_then_down
                         (setCurrentInput (Some "half a li")
                            (logged host0 "pwd" pwdOutput (mount host0)))
                         [] "pwd" [] eq_refl eq_refl))).
Defined.

(** ** The tokens of a line *)

(** X8: the tokens of a line are exactly the pieces between the single
    spaces of the line once it is put in lower case and trimmed: joined again
    with one space between them they give that string back, and no token has
    a space in it.  So a run of two spaces yields an empty token, and a tab
    does not separate tokens. *)
Theorem tokens_are_space_separated_pieces (h : Host) (input : string) :
  Js.join " " (fst (tokens h input) :: snd (tokens h input))
  = Js.trim (Js.toLowerCase (engine h) input)
  /\ Forall (fun t => hasSpace t = false) (fst (tokens h input) :: snd (tokens h input)).
Proof.
  unfold tokens, Js.join. split; [apply split_rejoin | apply split_no_space].
Qed.

(** The lower case of an ASCII name followed by two spaces and anything. *)
Lemma lower_two_spaces (h : Host) (name rest : string) :
  Js.isAscii name = true ->
  Js.toLowerCase (engine h) (name ++ String " " (String " " rest))
  = (Js.asciiLowerCase name
     ++ String " " (String " " (Js.toLowerCase (engine h) rest)))%string.
Proof.
  intros Ha. rewrite Js.lower_space, (Js.lower_ascii (engine h) name Ha).
  change (String " " rest) with (EmptyString ++ String " " rest)%string.
  rewrite Js.lower_space, (Js.lower_ascii (engine h) EmptyString eq_refl).
  reflexivity.
Qed.

Lemma split_cons_other (c : ascii) (r : string) :
  Ascii.eqb c " " = false ->
  Js.split " " (String c r) = (String c (fst (Js.split " " r)), snd (Js.split " " r)).
Proof. intros H. cbn [Js.split]. rewrite H. now destruct (Js.split " " r). Qed.

Lemma split_cons_space (r : string) :
  Js.split " " (String " " r) = (EmptyString, fst (Js.split " " r) :: snd (Js.split " " r)).
Proof. cbn [Js.split]. now destruct (Js.split " " r). Qed.

(** Takes the tokens of a line that begins with an ASCII name and two
    spaces apart. *)
Ltac tokens_after_two_spaces h name rest :=
  unfold tokens;
  match goal with
  | |- context [Js.toLowerCase (engine h) ?line] =>
      change line with (name ++ String " " (String " " rest))%string
  end;
  rewrite (lower_two_spaces h name rest eq_refl);
  change (Js.asciiLowerCase name) with name;
  generalize (Js.toLowerCase (engine h) rest); intros L;
  unfold Js.trim;
  change (Js.trimStart (name ++ String " " (String " " L)))
    with (name ++ String " " (String " " L))%string;
  change (Js.trimEnd (name ++ String " " (String " " L)))
    with (name ++ (if Js.isBlank L then EmptyString
                   else String " " (if Js.isBlank L then EmptyString
                                    else String " " (Js.trimEnd L))))%string;
  destruct (Js.isBlank L);
  [ left; reflexivity
  | right; cbn [append];
    rewrite !split_cons_other by reflexivity;
    rewrite !split_cons_space; eexists; eexists; reflexivity ].

Lemma cat_two_spaces_tokens (h : Host) (rest : string) :
  tokens h ("cat  " ++ rest) = ("cat", [])
  \/ exists w ws, tokens h ("cat  " ++ rest) = ("cat", EmptyString :: w :: ws).
Proof. tokens_after_two_spaces h "cat" rest. Qed.

Lemma theme_two_spaces_tokens (h : Host) (rest : string) :
  tokens h ("theme  " ++ rest) = ("theme", [])
  \/ exists w ws, tokens h ("theme  " ++ rest) = ("theme", EmptyString :: w :: ws).
Proof. tokens_after_two_spaces h "theme" rest. Qed.

(** X9: a name followed by two spaces hides its argument.  Whatever follows
    [cat] and two spaces, the readme included, [cat] answers
    [cat: filename: No such file or directory]; whatever follows [theme] and
    two spaces, a valid theme included, [theme] answers with the current
    theme and [setTheme] is not called. *)
Theorem two_spaces_hide_the_argument (h : Host) (rest : string) (st : State) :
  executeCommand h ("cat  " ++ rest)%string st
  = (logged h ("cat  " ++ rest)%string (noSuchFile None) st, [])
  /\ textContent (noSuchFile None) = "cat: filename: No such file or directory"
  /\ executeCommand h ("theme  " ++ rest)%string st
     = (logged h ("theme  " ++ rest)%string currentThemeOutput st, []).
Proof.
  split; [|split; [reflexivity|]].
  - destruct (cat_two_spaces_tokens h rest) as [T|(w & ws & T)];
      rewrite (executeCommand_tokens h _ st _ _ T); reflexivity.
  - destruct (theme_two_spaces_tokens h rest) as [T|(w & ws & T)];
      rewrite (executeCommand_tokens h _ st _ _ T); reflexivity.
Qed.

(** * Properties of the page *)

(** ** What the terminal asks of the page *)

Lemma handle_wellFormed (h : Host) (e : Event) (st st' : State) (effs : list Effect) :
  handle h e st = Js.Normal (st', effs) -> Forall wellFormedCall effs.
Proof.
  destruct e as [value|key| | |data|]; simpl;
    try (intros E; injection E as _ <-; repeat constructor; simpl; tauto).
  unfold handleSubmit. destruct (currentInput st) as [s|]; [|discriminate].
  destruct (Js.truthy (Some (Js.trim s)));
    [|intros E; injection E as _ <-; constructor].
  rewrite executeCommand_dispatch.
  pose proof (dispatch_effects h st (fst (tokens h s)) (snd (tokens h s))) as D.
  destruct (dispatch h st (fst (tokens h s)) (snd (tokens h s))) as [out effs1|st1];
    intros E; injection E as _ <-; [|constructor].
  destruct D as [-> | [[_ [a [Ha ->]]] | [_ ->]]].
  - constructor.
  - constructor; [exact Ha | constructor].
  - constructor; [split; reflexivity | constructor].
Qed.

(** X10: whatever event a terminal handles, in whatever state, the calls
    that leave the component are of two kinds only: [setTheme] with one of
    default, angler, magic, cmd (so the cast of the typed argument to the
    theme type never lets another string through), and [setTimeout] with a
    delay of 1000 ms and the callback that sets the theme to default. *)
Theorem terminal_calls_are_well_formed (h : Host) (e : Event) (st st' : State)
        (effects : list Effect) :
  handle h e st = Js.Normal (st', effects) ->
  Forall (fun eff =>
            match eff with
            | SetTheme theme => In theme themes
            | SetTimeout callback ms => callback = ThenSetTheme "default" /\ ms = 1000
            end) effects.
Proof. intros E. exact (handle_wellFormed h e st st' effects E). Qed.

Lemma terminal_calls_are_well_formed_witness :
  Forall (fun eff =>
            match eff with
            | SetTheme theme => In theme themes
            | SetTimeout callback ms => callback = ThenSetTheme "default" /\ ms = 1000
            end) [SetTheme "angler"].
Proof.
  apply (terminal_calls_are_well_formed host0 Submit
           (setCurrentInput (Some "Theme Angler") (mount host0))
           (setCurrentInput (Some EmptyString)
              (logged host0 "Theme Angler" (themeSwitched "angler")
                 (setCurrentInput (Some "Theme Angler") (mount host0))))).
  reflexivity.
Defined.

(** ** Leaving the terminal *)

Lemma acts_type_and_submit (h : Host) (line : string) (st : State) (calls : list string) :
  fst (tokens h line) <> EmptyString ->
  App.acts h [App.Terminal (Change line); App.Terminal Submit] (terminalPage st calls)
  = let '(st', effects) := executeCommand h line (setCurrentInput (Some line) st) in
    Js.Normal (App.performAll h effects
                 (App.mkPage "cmd" (Some (setCurrentInput (Some EmptyString) st')) []
                             calls)).
Proof.
  intros He. unfold terminalPage. cbn [App.acts App.act App.terminal handle].
  cbn [App.performAll fold_left App.currentTheme App.terminalTimers App.setThemeCalls App.terminal].
  change (handleSubmit h (setCurrentInput (Some line) st)) with (submitLine h line st).
  rewrite (submitLine_executes h line st He).
  destruct (executeCommand h line (setCurrentInput (Some line) st)) as [st' effs].
  reflexivity.
Qed.

(** X11: on a page that shows the terminal with no timer pending, typing a
    line whose first token is [exit] and submitting it records the line and
    leaves the terminal mounted with one timer of 1000 ms pending.  As long as
    less than 1000 ms have passed the page still shows the terminal, in the
    same state; once 1000 ms have passed the theme is default and the
    terminal is unmounted. *)
Theorem exit_leaves_after_a_second (h : Host) (line : string) (st : State)
        (calls : list string) (ms : Z) :
  fst (tokens h line) = "exit" ->
  exists st',
    App.acts h [App.Terminal (Change line); App.Terminal Submit] (terminalPage st calls)
    = Js.Normal (App.mkPage "cmd" (Some st') [(1000, ThenSetTheme "default")] calls)
    /\ commandHistory st' = commandHistory st ++ [line]
    /\ (ms < 1000 ->
        App.act h (App.Elapse ms)
          (App.mkPage "cmd" (Some st') [(1000, ThenSetTheme "default")] calls)
        = Js.Normal (App.mkPage "cmd" (Some st') [(1000 - ms, ThenSetTheme "default")]
                                calls))
    /\ (1000 <= ms ->
        App.act h (App.Elapse ms)
          (App.mkPage "cmd" (Some st') [(1000, ThenSetTheme "default")] calls)
        = Js.Normal (App.mkPage "default" None [] (calls ++ ["default"]))).
Proof.
  intros Ht.
  assert (He : fst (tokens h line) <> EmptyString) by (rewrite Ht; discriminate).
  rewrite (acts_type_and_submit h line st calls He), executeCommand_dispatch, Ht.
  eexists. split; [reflexivity|]. split; [reflexivity|].
  split; intros Hms; cbn [App.act]; unfold App.elapse;
    cbn [App.terminalTimers filter fst snd negb].
  - replace (1000 <=? ms) with false by (symmetry; apply Z.leb_gt; lia). reflexivity.
  - replace (1000 <=? ms) with true by (symmetry; apply Z.leb_le; lia). reflexivity.
Qed.

Lemma exit_leaves_after_a_second_witness :
  exists st',
    App.acts host0 [App.Terminal (Change "EXIT"); App.Terminal Submit]
             (terminalPage (mount host0) ["cmd"])
    = Js.Normal (App.mkPage "cmd" (Some st') [(1000, ThenSetTheme "default")] ["cmd"])
    /\ App.act host0 (App.Elapse 999)
         (App.mkPage "cmd" (Some st') [(1000, ThenSetTheme "default")] ["cmd"])
       = Js.Normal (App.mkPage "cmd" (Some st') [(1, ThenSetTheme "default")] ["cmd"]).
Proof.
  destruct (exit_leaves_after_a_second host0 "EXIT" (mount host0) ["cmd"] 999 eq_refl)
    as (st' & E & _ & Hlt & _).
  exists st'. split; [exact E|]. apply Hlt. lia.
Defined.

(** X12: on a page that shows the terminal with no timer pending, typing
    [theme] with a valid theme and submitting it.  With [cmd] the terminal
    stays mounted and keeps its session, the line recorded.  With default,
    angler or magic the page takes that theme and the terminal is unmounted;
    selecting cmd again then mounts a fresh terminal: the session log holds
    the welcome entry only and the input history is empty. *)
Theorem theme_command_on_the_page (h : Host) (line a : string) (more : list string)
        (st : State) (calls : list string) :
  tokens h line = ("theme", a :: more) ->
  In a themes ->
  (a = "cmd" ->
   exists st',
     App.acts h [App.Terminal (Change line); App.Terminal Submit] (terminalPage st calls)
     = Js.Normal (App.mkPage "cmd" (Some st') [] (calls ++ ["cmd"]))
     /\ commandHistory st' = commandHistory st ++ [line])
  /\ (a <> "cmd" ->
      App.acts h [App.Terminal (Change line); App.Terminal Submit; App.Select "cmd"]
               (terminalPage st calls)
      = Js.Normal (App.mkPage "cmd" (Some (mount h)) [] (calls ++ [a; "cmd"]))
      /\ App.acts h [App.Terminal (Change line); App.Terminal Submit]
                  (terminalPage st calls)
         = Js.Normal (App.mkPage a None [] (calls ++ [a]))).
Proof.
  intros Ht Hin.
  assert (He : fst (tokens h line) <> EmptyString) by (rewrite Ht; discriminate).
  assert (E : executeCommand h line (setCurrentInput (Some line) st)
              = (logged h line (themeSwitched a) (setCurrentInput (Some line) st),
                 [SetTheme a])).
  { rewrite (executeCommand_tokens h line _ _ _ Ht).
    unfold dispatch. cbn [String.eqb Ascii.eqb Bool.eqb].
    change (Js.index (a :: more) 0) with (Some a).
    assert (Htr : Js.truthy (Some a) = true).
    { simpl in Hin. repeat (destruct Hin as [<-|Hin]; [reflexivity|]). elim Hin. }
    rewrite Htr, (proj2 (includes_In themes a) Hin). reflexivity. }
  split.
  - intros ->. rewrite (acts_type_and_submit h line st calls He), E.
    eexists. split; reflexivity.
  - intros Hc.
    assert (E2 : App.acts h [App.Terminal (Change line); App.Terminal Submit]
                          (terminalPage st calls)
                 = Js.Normal (App.mkPage a None [] (calls ++ [a]))).
    { rewrite (acts_type_and_submit h line st calls He), E.
      cbn [App.performAll fold_left App.perform]. unfold App.setTheme.
      destruct (String.eqb_spec a "cmd"); [contradiction | reflexivity]. }
    split; [|exact E2].
    change [App.Terminal (Change line); App.Terminal Submit; App.Select "cmd"]
      with ([App.Terminal (Change line); App.Terminal Submit] ++ [App.Select "cmd"]).
    revert E2. generalize (terminalPage st calls). intros pg E2.
    cbn [app App.acts] in *.
    destruct (App.act h (App.Terminal (Change line)) pg) as [pg1|]; [|discriminate].
    destruct (App.act h (App.Terminal Submit) pg1) as [pg2|]; [|discriminate].
    injection E2 as ->. cbn [App.act]. unfold App.setTheme. simpl.
    rewrite <- app_assoc. reflexivity.
Qed.

Lemma theme_command_on_the_page_witness :
  App.acts host0 [App.Terminal (Change "theme magic"); App.Terminal Submit; App.Select "cmd"]
           (terminalPage (logged host0 "pwd" pwdOutput (mount host0)) ["cmd"])
  = Js.Normal (App.mkPage "cmd" (Some (mount host0)) [] (["cmd"] ++ ["magic"; "cmd"])).
Proof.
  refine (proj1 (proj2 (theme_command_on_the_page host0 "theme magic" "magic" []
                          (logged host0 "pwd" pwdOutput (mount host0)) ["cmd"]
                          eq_refl _) _)).
  - simpl. tauto.
  - discriminate.
Defined.

(** ** The theme and the timers of the page *)

Lemma setTheme_consistent (h : Host) (theme : string) (pg : App.Page) :
  pageConsistent pg -> pageConsistent (App.setTheme h theme pg).
Proof.
  intros [_ Ht]. split; cbn [App.setTheme App.currentTheme App.setThemeCalls App.terminalTimers].
  - now rewrite last_last.
  - exact Ht.
Qed.

Lemma performAll_consistent (h : Host) (effs : list Effect) (pg : App.Page) :
  Forall wellFormedCall effs -> pageConsistent pg ->
  pageConsistent (App.performAll h effs pg).
Proof.
  unfold App.performAll. revert pg.
  induction effs as [|eff r IH]; intros pg Hw Hp; [exact Hp|].
  inversion Hw as [|? ? He Hr]; subst. cbn [fold_left]. apply IH; [exact Hr|].
  destruct eff as [theme|cb ms]; cbn [App.perform].
  - now apply setTheme_consistent.
  - destruct He as [-> _]. destruct Hp as [Hc Ht]. split; [exact Hc|].
    cbn [App.terminalTimers]. apply Forall_app. split; [exact Ht | repeat constructor].
Qed.

Lemma elapse_consistent (h : Host) (ms : Z) (pg : App.Page) :
  pageConsistent pg -> pageConsistent (App.elapse h ms pg).
Proof.
  intros [Hc Ht]. unfold App.elapse.
  set (pg0 := App.mkPage _ _ _ _).
  assert (H0 : pageConsistent pg0).
  { split; [exact Hc|]. cbn [pg0 App.terminalTimers]. apply Forall_map.
    apply Forall_forall. intros t Hin. apply filter_In in Hin as [Hin _].
    exact (proj1 (Forall_forall _ _) Ht t Hin). }
  clearbody pg0. revert pg0 H0.
  induction (filter (fun t => fst t <=? ms) (App.terminalTimers pg)) as [|[d cb] r IH];
    intros pg0 H0; cbn [fold_left]; [exact H0|].
  apply IH. destruct cb as [theme]. now apply setTheme_consistent.
Qed.

Lemma act_consistent (h : Host) (a : App.Action) (pg pg' : App.Page) :
  pageConsistent pg -> App.act h a pg = Js.Normal pg' -> pageConsistent pg'.
Proof.
  intros Hp. destruct a as [theme|e|ms]; cbn [App.act].
  - intros E; injection E as <-. now apply setTheme_consistent.
  - destruct (App.terminal pg) as [st|]; [|intros E; injection E as <-; exact Hp].
    destruct (handle h e st) as [[st' effs]|err] eqn:Eh; [|discriminate].
    intros E; injection E as <-.
    apply performAll_consistent; [exact (handle_wellFormed h e st st' effs Eh)|].
    exact Hp.
  - intros E; injection E as <-. now apply elapse_consistent.
Qed.

Lemma acts_consistent (h : Host) (l : list App.Action) (pg pg' : App.Page) :
  pageConsistent pg -> App.acts h l pg = Js.Normal pg' -> pageConsistent pg'.
Proof.
  revert pg. induction l as [|a r IH]; intros pg Hp; cbn [App.acts].
  - intros E; injection E as <-. exact Hp.
  - destruct (App.act h a pg) as [pg1|err] eqn:E1; [|discriminate].
    apply IH. exact (act_consistent h a pg pg1 Hp E1).
Qed.

(** X13: whatever happens on the page (themes selected from outside the
    terminal, events in the terminal, time passing), the current theme is the
    argument of the most recent call of [setTheme], or default when it has
    never been called. *)
Theorem current_theme_is_last_call (h : Host) (l : list App.Action) (pg : App.Page) :
  App.acts h l App.start = Js.Normal pg ->
  App.currentTheme pg = last (App.setThemeCalls pg) "default".
Proof.
  intros E. refine (proj1 (acts_consistent h l App.start pg _ E)).
  split; [reflexivity | constructor].
Qed.

Lemma current_theme_is_last_call_witness :
  App.currentTheme (App.mkPage "default" None [] ["cmd"; "magic"; "default"])
  = last ["cmd"; "magic"; "default"] "default".
Proof.
  apply (current_theme_is_last_call host0
           [ App.Select "cmd"; App.Terminal (Change "exit"); App.Terminal Submit;
             App.Terminal (Change "theme magic"); App.Terminal Submit;
             App.Elapse 1000 ]
           (App.mkPage "default" None [] ["cmd"; "magic"; "default"])).
  reflexivity.
Defined.

(** X14: whatever happens on the page, every pending timer that the
    terminal has set is one whose callback sets the theme to default: the
    terminal never schedules a change to another theme.  (The timers of the
    other components are not timers of the terminal; the typewriter's only
    change its own text.) *)
Theorem pending_timers_set_default (h : Host) (l : list App.Action) (pg : App.Page) :
  App.acts h l App.start = Js.Normal pg ->
  Forall (fun t => snd t = ThenSetTheme "default") (App.terminalTimers pg).
Proof.
  intros E. refine (proj2 (acts_consistent h l App.start pg _ E)).
  split; [reflexivity | constructor].
Qed.

Lemma pending_timers_set_default_witness :
  Forall (fun t => snd t = ThenSetTheme "default")
         [(400, ThenSetTheme "default"); (1000, ThenSetTheme "default")].
Proof.
  apply (pending_timers_set_default host0
           [ App.Select "cmd"; App.Terminal (Change "exit"); App.Terminal Submit;
             App.Elapse 600; App.Terminal (Change "exit"); App.Terminal Submit ]
           (App.mkPage "cmd"
              (Some (setCurrentInput (Some EmptyString)
                       (logged host0 "exit" exitOutput
                          (logged host0 "exit" exitOutput (mount host0)))))
              [(400, ThenSetTheme "default"); (1000, ThenSetTheme "default")]
              ["cmd"])).
  reflexivity.
Defined.

(** * Properties of the contact form *)

Lemma get_assign_same (name value : string) (o : ContactForm.Obj) :
  ContactForm.get name (ContactForm.assign name value o) = Some value.
Proof.
  induction o as [|[k v] r IH]; simpl.
  - now rewrite String.eqb_refl.
  - destruct (String.eqb_spec k name) as [->|Hk]; simpl.
    + now rewrite String.eqb_refl.
    + destruct (String.eqb_spec k name); [contradiction | exact IH].
Qed.

Lemma get_assign_other (name other value : string) (o : ContactForm.Obj) :
  other <> name ->
  ContactForm.get other (ContactForm.assign name value o) = ContactForm.get other o.
Proof.
  intros Hn. induction o as [|[k v] r IH]; simpl.
  - destruct (String.eqb_spec name other); [congruence | reflexivity].
  - destruct (String.eqb_spec k name) as [->|Hk]; simpl.
    + destruct (String.eqb_spec name other); [congruence | reflexivity].
    + destruct (String.eqb_spec k other); [reflexivity | exact IH].
Qed.

Lemma assign_keys (name value : string) (o : ContactForm.Obj) :
  In name (map fst o) ->
  map fst (ContactForm.assign name value o) = map fst o.
Proof.
  induction o as [|[k v] r IH]; simpl; [tauto|].
  intros [->|Hin].
  - now rewrite String.eqb_refl.
  - destruct (String.eqb_spec k name) as [->|Hk]; simpl; [reflexivity|].
    now rewrite IH.
Qed.

(** X15: an edit of one field of the contact form sets that field to the
    value typed and changes no other field, nor the flags of the form; and
    when the field is one the form already has, the form keeps exactly its
    fields, in their order. *)
Theorem input_change_sets_one_field (name value : string) (st : ContactForm.State) :
  ContactForm.get name (ContactForm.formData (ContactForm.handleInputChange name value st))
  = Some value
  /\ (forall other, other <> name ->
        ContactForm.get other
          (ContactForm.formData (ContactForm.handleInputChange name value st))
        = ContactForm.get other (ContactForm.formData st))
  /\ ContactForm.isSubmitting (ContactForm.handleInputChange name value st)
     = ContactForm.isSubmitting st
  /\ ContactForm.submitStatus (ContactForm.handleInputChange name value st)
     = ContactForm.submitStatus st
  /\ (In name (map fst (ContactForm.formData st)) ->
      map fst (ContactForm.formData (ContactForm.handleInputChange name value st))
      = map fst (ContactForm.formData st)).
Proof.
  cbn [ContactForm.handleInputChange ContactForm.formData ContactForm.isSubmitting
       ContactForm.submitStatus].
  split; [apply get_assign_same|].
  split; [intros other Ho; now apply get_assign_other|].
  split; [reflexivity|]. split; [reflexivity|]. apply assign_keys.
Qed.

Lemma input_change_sets_one_field_witness :
  map fst (ContactForm.formData
             (ContactForm.handleInputChange "email" "a@b.c" ContactForm.initial))
  = ["name"; "email"; "subject"; "message"].
Proof.
  refine (proj2 (proj2 (proj2 (proj2
            (input_change_sets_one_field "email" "a@b.c" ContactForm.initial)))) _).
  simpl. tauto.
Defined.

Lemma typeAll_formData (edits : list (string * string)) (st1 st2 : ContactForm.State) :
  ContactForm.formData st1 = ContactForm.formData st2 ->
  ContactForm.formData (ContactForm.typeAll edits st1)
  = ContactForm.formData (ContactForm.typeAll edits st2).
Proof.
  unfold ContactForm.typeAll. revert st1 st2.
  induction edits as [|[n v] r IH]; intros st1 st2 H; cbn [fold_left]; [exact H|].
  apply IH. cbn [ContactForm.handleInputChange ContactForm.formData fst snd].
  now rewrite H.
Qed.

Lemma typeAll_flags (edits : list (string * string)) (st : ContactForm.State) :
  ContactForm.isSubmitting (ContactForm.typeAll edits st) = ContactForm.isSubmitting st
  /\ ContactForm.submitStatus (ContactForm.typeAll edits st) = ContactForm.submitStatus st.
Proof.
  unfold ContactForm.typeAll. revert st.
  induction edits as [|[n v] r IH]; intros st; cbn [fold_left]; [split; reflexivity|].
  destruct (IH (ContactForm.handleInputChange (fst (n, v)) (snd (n, v)) st)) as [H1 H2].
  rewrite H1, H2. split; reflexivity.
Qed.

(** X16: what is posted and what becomes of the form.  The body posted is
    the form as it stood when it was submitted; edits made while the request
    is in flight are not part of it.  When the request succeeds the form is
    emptied, those edits included, and the status is success; when it fails
    the form keeps everything, those edits included, and the status is error.
    Either way the form is no longer submitting. *)
Theorem submission_outcomes (st : ContactForm.State) (edits : list (string * string)) :
  snd (ContactForm.handleSubmit st) = ContactForm.formData st
  /\ ContactForm.sent (ContactForm.typeAll edits (fst (ContactForm.handleSubmit st)))
     = ContactForm.mkState ContactForm.emptyForm false ContactForm.success
  /\ ContactForm.failed (ContactForm.typeAll edits (fst (ContactForm.handleSubmit st)))
     = ContactForm.mkState (ContactForm.formData (ContactForm.typeAll edits st)) false
                           ContactForm.error.
Proof.
  split; [reflexivity|]. split; [reflexivity|].
  unfold ContactForm.failed. f_equal.
  apply typeAll_formData. reflexivity.
Qed.

Lemma step_oneRequest (e : ContactForm.Event) (s : ContactForm.Session) :
  oneRequest s -> oneRequest (ContactForm.step e s).
Proof.
  unfold oneRequest. destruct s as [st fl].
  cbn [ContactForm.inFlight ContactForm.state].
  destruct e as [name value| | |];
    cbn [ContactForm.step ContactForm.inFlight ContactForm.state].
  - tauto.
  - destruct fl as [|b [|b' r]]; intros H; [| |contradiction].
    + rewrite H. simpl. split; reflexivity.
    + destruct H as [H1 H2]. rewrite H1. simpl. split; assumption.
  - destruct fl as [|b [|b' r]]; intros H; simpl; tauto.
  - destruct fl as [|b [|b' r]]; intros H; simpl; tauto.
Qed.

Lemma steps_oneRequest (l : list ContactForm.Event) (s : ContactForm.Session) :
  oneRequest s -> oneRequest (ContactForm.steps l s).
Proof.
  unfold ContactForm.steps. revert s.
  induction l as [|e r IH]; intros s H; cbn [fold_left]; [exact H|].
  apply IH. now apply step_oneRequest.
Qed.

(** X17: with the submit button disabled while the form is submitting, over
    any run of edits, submissions and settlements from the initial form there
    is never more than one request in flight; the form is submitting exactly
    while one is; and while it is, the status shown is idle, so no success or
    error message of an earlier attempt stays up during a new one. *)
Theorem one_request_at_a_time (l : list ContactForm.Event) :
  let s := ContactForm.steps l (ContactForm.mkSession ContactForm.initial []) in
  (length (ContactForm.inFlight s) <= 1)%nat
  /\ (ContactForm.isSubmitting (ContactForm.state s) = true
      <-> ContactForm.inFlight s <> [])
  /\ (ContactForm.isSubmitting (ContactForm.state s) = true ->
      ContactForm.submitStatus (ContactForm.state s) = ContactForm.idle).
Proof.
  intros s.
  assert (H : oneRequest s) by (apply steps_oneRequest; reflexivity).
  unfold oneRequest in H.
  destruct (ContactForm.inFlight s) as [|b [|b' r]]; [| |contradiction].
  - rewrite H. cbn [length]. split; [lia|]. split; [|discriminate].
    split; [discriminate | intros E; now elim E].
  - destruct H as [H1 H2]. cbn [length]. split; [lia|]. split; [|intros _; exact H2].
    split; [discriminate | intros _; exact H1].
Qed.

(** * Properties of the project grid *)

(** X18: the projects shown are those of the selected category, in the
    order they were fetched: a project is shown exactly when it was fetched
    and either the selection is [all] or its category is the selected one
    (compared as it stands, case included); with [all] the grid is the whole
    list, and no selection shows more than was fetched. *)
Theorem filtered_projects_are_the_category (st : Projects.State) :
  (forall project,
     In project (Projects.filteredProjects st)
     <-> In project (Projects.projects st)
         /\ (Projects.selectedCategory st = "all"
             \/ Api.category project = Projects.selectedCategory st))
  /\ (Projects.selectedCategory st = "all" ->
      Projects.filteredProjects st = Projects.projects st)
  /\ (length (Projects.filteredProjects st) <= length (Projects.projects st))%nat.
Proof.
  unfold Projects.filteredProjects.
  destruct (String.eqb_spec (Projects.selectedCategory st) "all") as [E|E].
  - split; [|split; [reflexivity | lia]].
    intros project. tauto.
  - split; [|split; [contradiction | apply filter_length_le]].
    intros project. rewrite filter_In, String.eqb_eq. tauto.
Qed.

Lemma filtered_projects_are_the_category_witness :
  Projects.filteredProjects
    (Projects.fetched (TerminalPortfolio.mockProjects host0) [("Full Stack", 1)]
                      Projects.initial)
  = TerminalPortfolio.mockProjects host0.
Proof.
  refine (proj1 (proj2 (filtered_projects_are_the_category
                          (Projects.fetched (TerminalPortfolio.mockProjects host0)
                                            [("Full Stack", 1)] Projects.initial))) _).
  reflexivity.
Defined.

(** X19: the notice that no project was found is shown exactly when loading
    is over and no fetched project matches the selection.  It is never shown
    while loading, and after a failed fetch it is shown whatever category is
    selected. *)
Theorem empty_notice_iff_nothing_matches (st : Projects.State) :
  (Projects.showsEmptyNotice st = true
   <-> Projects.loading st = false
       /\ forall project, In project (Projects.projects st) ->
            Projects.selectedCategory st <> "all"
            /\ Api.category project <> Projects.selectedCategory st)
  /\ (forall category,
        Projects.showsEmptyNotice
          (Projects.setSelectedCategory category (Projects.fetchFailed st)) = true).
Proof.
  split.
  - unfold Projects.showsEmptyNotice.
    rewrite andb_true_iff, negb_true_iff, Z.eqb_eq.
    destruct (filtered_projects_are_the_category st) as [Hin _].
    split.
    + intros [Hl Hload]. split; [exact Hload|].
      intros project Hp.
      assert (Hn : ~ In project (Projects.filteredProjects st)).
      { destruct (Projects.filteredProjects st); [tauto | simpl in Hl; lia]. }
      rewrite Hin in Hn.
      split; [intros E; apply Hn; tauto | intros E; apply Hn; tauto].
    + intros [Hload Hnone]. split; [|exact Hload].
      destruct (Projects.filteredProjects st) as [|q r] eqn:Ef; [reflexivity|].
      assert (Hq : In q (q :: r)) by now left.
      apply Hin in Hq as [Hq [Hall|Hcat]];
        destruct (Hnone q Hq) as [H1 H2]; contradiction.
  - intros category. unfold Projects.showsEmptyNotice, Projects.filteredProjects.
    cbn [Projects.setSelectedCategory Projects.fetchFailed Projects.projects
         Projects.loading Projects.selectedCategory].
    destruct (String.eqb category "all"); reflexivity.
Qed.

(** X20: the badges of a project card lose no technology silently: at most
    four technologies get a badge, they are the first ones in order, and the
    [+N more] badge is there exactly when some are left out, with N the number
    left out. *)
Theorem technology_badges_account_for_all (project : Api.Project) :
  (length (Projects.technologyBadges project) <= 4)%nat
  /\ (exists hidden,
        Api.technologies project = Projects.technologyBadges project ++ hidden
        /\ match Projects.moreBadge project with
           | Some n => n = Z.of_nat (length hidden) /\ hidden <> []
           | None => hidden = []
           end).
Proof.
  unfold Projects.technologyBadges, Projects.sliceFirst, Projects.moreBadge.
  split; [apply firstn_le_length|].
  exists (skipn 4 (Api.technologies project)).
  split; [symmetry; apply firstn_skipn|].
  pose proof (length_skipn 4 (Api.technologies project)) as Hs.
  destruct (Z.gtb_spec (Z.of_nat (length (Api.technologies project))) 4) as [Hg|Hg].
  - split; [lia|]. intros E. rewrite E in Hs. simpl in Hs. lia.
  - destruct (skipn 4 (Api.technologies project)); [reflexivity | simpl in Hs; lia].
Qed.

(** * Properties of the typewriter *)

Lemma rounds_plus (n m : nat) (st : Hero.State) :
  Hero.rounds (n + m) st
  = match Hero.rounds n st with
    | Js.Throw err => Js.Throw err
    | Js.Normal (st', t) =>
        match Hero.rounds m st' with
        | Js.Throw err => Js.Throw err
        | Js.Normal (st'', t') => Js.Normal (st'', t + t')
        end
    end.
Proof.
  revert st. induction n as [|n IH]; intros st.
  - cbn [Nat.add Hero.rounds]. destruct (Hero.rounds m st) as [[st' t']|err]; reflexivity.
  - cbn [Nat.add Hero.rounds]. destruct (Hero.round st) as [[st1 t1]|err]; [|reflexivity].
    rewrite IH. destruct (Hero.rounds n st1) as [[st2 t2]|err]; [|reflexivity].
    destruct (Hero.rounds m st2) as [[st3 t3]|err]; [|reflexivity].
    f_equal. f_equal. lia.
Qed.

Lemma rounds_period : Hero.rounds 50 Hero.initial = Js.Normal (Hero.initial, 12450).
Proof. vm_compute. reflexivity. Qed.

Lemma rounds_periods (q : nat) :
  Hero.rounds (q * 50) Hero.initial = Js.Normal (Hero.initial, 12450 * Z.of_nat q).
Proof.
  induction q as [|q IH]; [reflexivity|].
  change (S q * 50)%nat with (50 + q * 50)%nat.
  rewrite rounds_plus, rounds_period, IH. f_equal. f_equal. lia.
Qed.

Lemma typingAfter_first_period : forallb typingAfter (seq 0 50) = true.
Proof. vm_compute. reflexivity. Qed.

(** X21: in the default theme the typewriter never stops and never fails:
    from its initial state it gets through any number of rounds without an
    exception (the name index always points into the list of names), and
    after every round the text displayed is a beginning of the name the index
    points to. *)
Theorem typewriter_types_a_name (n : nat) :
  exists st t,
    Hero.rounds n Hero.initial = Js.Normal (st, t)
    /\ 0 <= Hero.currentNameIndex st < Z.of_nat (length Hero.names)
    /\ exists name,
         Js.index Hero.names (Hero.currentNameIndex st) = Some name
         /\ isPrefix (Hero.displayedName st) name = true.
Proof.
  rewrite (Nat.div_mod_eq n 50), (Nat.mul_comm 50), rounds_plus, rounds_periods.
  assert (Hr : In (n mod 50)%nat (seq 0 50)).
  { apply in_seq. pose proof (Nat.mod_upper_bound n 50). lia. }
  pose proof (proj1 (forallb_forall _ _) typingAfter_first_period _ Hr) as Hc.
  unfold typingAfter, typingSomeName in Hc.
  destruct (Hero.rounds (n mod 50) Hero.initial) as [[st t]|err]; [|discriminate].
  exists st, (12450 * Z.of_nat (n / 50) + t). split; [reflexivity|].
  destruct (Js.index Hero.names (Hero.currentNameIndex st)) as [name|] eqn:En;
    [|discriminate].
  split; [|exists name; split; [reflexivity | exact Hc]].
  unfold Js.index in En.
  destruct (Z.ltb_spec (Hero.currentNameIndex st) 0); [discriminate|].
  assert (Hn : nth_error Hero.names (Z.to_nat (Hero.currentNameIndex st)) <> None)
    by (rewrite En; discriminate).
  apply nth_error_Some in Hn. lia.
Qed.

(** X22: the typewriter is periodic.  From the initial state, 9 rounds show
    the first name in full and 34 rounds the second; 50 rounds, which take
    12450 ms, lead back to the initial state, and so does every multiple of
    50 rounds: both names are typed in full and erased, in turn, for ever. *)
Theorem typewriter_cycles (q : nat) :
  Hero.rounds (q * 50) Hero.initial = Js.Normal (Hero.initial, 12450 * Z.of_nat q)
  /\ Hero.rounds (q * 50 + 9) Hero.initial
     = Js.Normal (Hero.mkState "ManoTilts" true 0, 12450 * Z.of_nat q + 1800)
  /\ Hero.rounds (q * 50 + 34) Hero.initial
     = Js.Normal (Hero.mkState "Felipe Barbosa" true 1, 12450 * Z.of_nat q + 8150).
Proof.
  split; [apply rounds_periods|].
  split; rewrite rounds_plus, rounds_periods; vm_compute Hero.rounds; reflexivity.
Qed.
